(** * Bike-share ridership forecasting notebooks: a shallow embedding

    [build_model.ipynb] cleans trip records, aggregates them into a daily
    count series and a weekly mean series, fits and validates an
    ARIMA(2,1,2) model and saves it; [load_model.ipynb] loads the saved
    model and defines [forecast].

    The notebooks are sequences of dataframe and statistics library calls.
    The dataframe operations the notebooks use (boolean masks, [resample],
    [asfreq], label slicing, [to_datetime], [to_period]) are written out
    below as functions on lists, with the behaviour the libraries
    document; the estimation library is kept abstract as an interface.
    A statement that raises gives [None], and the notebook stops there. *)

From Stdlib Require Import ZArith QArith Ascii String Lia.
From stdpp Require Import base tactics option list numbers sorting strings gmap.

Local Open Scope Z_scope.

(** ** Calendar arithmetic

    A date is its day number, the count of days since 1970-01-01 in the
    proleptic Gregorian calendar; a timestamp is a count of minutes since
    1970-01-01 00:00 (the ingestion format ["%m/%d/%Y %H:%M"] has minute
    resolution). *)

Module Calendar.

Definition is_leap (y : Z) : bool :=
  ((y mod 4 =? 0) && negb (y mod 100 =? 0)) || (y mod 400 =? 0).

Definition days_in_month (y m : Z) : Z :=
  if m =? 2 then (if is_leap y then 29 else 28)
  else if (m =? 4) || (m =? 6) || (m =? 9) || (m =? 11) then 30
  else 31.

Definition valid_date (y m d : Z) : bool :=
  (1 <=? m) && (m <=? 12) && (1 <=? d) && (d <=? days_in_month y m).

(** Day number of the civil date [y]-[m]-[d]. *)
Definition days_from_civil (y m d : Z) : Z :=
  let y' := if m <=? 2 then y - 1 else y in
  let era := y' / 400 in
  let yoe := y' - era * 400 in
  let mp := if 2 <? m then m - 3 else m + 9 in
  let doy := (153 * mp + 2) / 5 + d - 1 in
  let doe := yoe * 365 + yoe / 4 - yoe / 100 + doy in
  era * 146097 + doe - 719468.

(** [datetime.weekday()]: Monday is 0 and Sunday is 6. 1970-01-01 was a
    Thursday. *)
Definition weekday (n : Z) : Z := (n + 3) mod 7.

Definition is_sunday (n : Z) : bool := weekday n =? 6.

(** The last day of the Sunday-ending week that contains day [n]:
    the first Sunday on or after [n]. *)
Definition week_end (n : Z) : Z := n + (6 - weekday n).

Definition minutes_per_day : Z := 1440.

(** [Timestamp.floor('D')], as a day number. *)
Definition day_of (t : Z) : Z := t / minutes_per_day.

Definition midnight (n : Z) : Z := n * minutes_per_day.

End Calendar.

(** ** Dataframe operations

    A numeric cell read from a CSV file is either a number or missing
    (NaN); a column is a list of cells, a boolean mask a list of [bool],
    and a series a list of (index label, value) pairs in row order. *)

Module Frame.

Definition cell : Type := option Z.

(** [column < k]: a comparison with a missing cell is [False]. *)
Definition lt_scalar (c : cell) (k : Z) : bool :=
  match c with
  | Some v => v <? k
  | None => false
  end.

(** [a == b] cell by cell: a comparison with a missing cell is [False],
    also when both are missing. *)
Definition cell_eq (a b : cell) : bool :=
  match a, b with
  | Some x, Some y => x =? y
  | _, _ => false
  end.

Definition lt_series (col : list cell) (k : Z) : list bool :=
  (λ c, lt_scalar c k) <$> col.

Definition eq_series (a b : list cell) : list bool := zip_with cell_eq a b.

(** [m1 & m2] and [~m]. *)
Definition mask_and (m1 m2 : list bool) : list bool := zip_with andb m1 m2.
Definition mask_not (m : list bool) : list bool := negb <$> m.

(** [frame[mask]]: the rows whose mask entry is [True], in row order. *)
Fixpoint select {A} (rows : list A) (mask : list bool) : list A :=
  match rows, mask with
  | r :: rows', b :: mask' =>
      if b then r :: select rows' mask' else select rows' mask'
  | _, _ => []
  end.

(** The value stored at label [k] (the first one, in row order). *)
Fixpoint get {V} (k : Z) (s : list (Z * V)) : option V :=
  match s with
  | [] => None
  | (k', v) :: s' => if k =? k' then Some v else get k s'
  end.

Definition index_min (idx : list Z) : option Z :=
  match idx with
  | [] => None
  | x :: idx' => Some (foldr Z.min x idx')
  end.

Definition index_max (idx : list Z) : option Z :=
  match idx with
  | [] => None
  | x :: idx' => Some (foldr Z.max x idx')
  end.

(** [count()] of a group: the number of cells that are not missing. *)
Definition count (cs : list cell) : Z :=
  Z.of_nat (length (filter is_Some cs)).

Definition total (vs : list Z) : Z := foldr Z.add 0 vs.

(** [mean()] of a group of integer counts; the mean of no values is NaN,
    written [None]. The quotient is kept exact, as sum over size. *)
Definition mean (vs : list Z) : option Q :=
  match vs with
  | [] => None
  | _ :: _ => Some (Qmake (total vs) (Pos.of_nat (length vs)))
  end.

(** [date_range(lo, hi, freq='D')] on day numbers. *)
Definition date_range_D (lo hi : Z) : list Z := seqZ lo (hi - lo + 1).

(** [date_range(lo, hi, freq='W-SUN')]: the Sundays from the first one on
    or after [lo] up to [hi]. *)
Definition date_range_W_SUN (lo hi : Z) : list Z :=
  let s := Calendar.week_end lo in
  (λ k, s + 7 * k) <$> seqZ 0 ((hi - s) / 7 + 1).

(** [series.resample('D').count()] on a series indexed by timestamps: one
    bin per calendar day from the day of the earliest label to the day of
    the latest, labelled by the day, holding the number of non-missing
    values whose label falls on that day. No rows, no bins. *)
Definition resample_D_count (s : list (Z * cell)) : list (Z * Z) :=
  let days := Calendar.day_of <$> s.*1 in
  match index_min days, index_max days with
  | Some lo, Some hi =>
      (λ d, (d, count (filter (λ p, Calendar.day_of p.1 = d) s).*2))
        <$> date_range_D lo hi
  | _, _ => []
  end.

(** [series.resample('W').mean()] on a series indexed by days: bins are
    the weeks ending on Sunday (closed and labelled on the right), from
    the week of the earliest label to the week of the latest; a bin with
    no value holds NaN. *)
Definition resample_W_mean (s : list (Z * Z)) : list (Z * option Q) :=
  match index_min s.*1, index_max s.*1 with
  | Some lo, Some hi =>
      (λ w, (w, mean (filter (λ p, Calendar.week_end p.1 = w) s).*2))
        <$> date_range_W_SUN lo (Calendar.week_end hi)
  | _, _ => []
  end.

(** What the dask resampler needs of the index it is given: two different
    labels at least. With no row, or with every row at one label, it
    raises. *)
Definition spans (idx : list Z) : bool :=
  match index_min idx, index_max idx with
  | Some lo, Some hi => lo <? hi
  | _, _ => false
  end.

(** [series.resample(rule)] followed by an aggregation, on a dask series:
    the aggregation of the rows when the resampler accepts the index. *)
Definition dask_resample {A B} (aggregate : list (Z * A) → B)
    (s : list (Z * A)) : option B :=
  if spans s.*1 then Some (aggregate s) else None.

(** [series.reindex(idx)]: the value at each new label, NaN where the
    series has none; an index with duplicate labels cannot be reindexed
    (the library raises, here [None]). *)
Definition reindex {V} (s : list (Z * option V)) (idx : list Z)
    : option (list (Z * option V)) :=
  if decide (NoDup s.*1)
  then Some ((λ w, (w, mjoin (get w s))) <$> idx)
  else None.

(** [series.asfreq('W-SUN')]: reindex to the weekly range spanned by the
    index; an empty series stays empty. *)
Definition asfreq_W_SUN {V} (s : list (Z * option V))
    : option (list (Z * option V)) :=
  match index_min s.*1, index_max s.*1 with
  | Some lo, Some hi => reindex s (date_range_W_SUN lo hi)
  | _, _ => Some []
  end.

(** A strict weekly, Sunday-anchored index: every label is a Sunday and
    each label is exactly seven days after the one before it. *)
Fixpoint weekly_steps (idx : list Z) : bool :=
  match idx with
  | a :: (b :: _) as tl => (b =? a + 7) && weekly_steps tl
  | _ => true
  end.

Definition strict_weekly (idx : list Z) : bool :=
  forallb Calendar.is_sunday idx && weekly_steps idx.

(** [series.loc[str(y1):str(y2)]] on a series indexed by days: the rows
    dated from January 1st of [y1] to December 31st of [y2]. *)
Definition loc_years {V} (y1 y2 : Z) (s : list (Z * V)) : list (Z * V) :=
  filter (λ p, Calendar.days_from_civil y1 1 1 ≤ p.1
               ∧ p.1 ≤ Calendar.days_from_civil y2 12 31) s.

Definition label_le {V} (p q : Z * V) : Prop := p.1 ≤ q.1.

#[global] Instance label_le_dec {V} (p q : Z * V) : Decision (label_le p q).
Proof. unfold label_le. apply _. Defined.

(** [frame.set_index(key)[col]]: the series of [col] labelled by [key],
    rows ordered by label. *)
Definition set_index {A V} (key : A → Z) (col : A → V) (rows : list A)
    : list (Z * V) :=
  merge_sort label_le ((λ r, (key r, col r)) <$> rows).

End Frame.

(** ** build_model.ipynb: cleaning and aggregation *)

Module BuildModel.
Import Frame.

(** One row of a quarterly rentals file, after the two time columns have
    been parsed. [Starttime] is the key the rows are indexed by, in minutes
    since the epoch; every other column may be missing in a row. *)
Record Trip := {
  Trip_id : cell;
  Starttime : Z;
  Stoptime : cell;
  Bikeid : cell;
  Tripduration : cell;
  From_station_id : cell;
  From_station_name : option string;
  To_station_id : cell;
  To_station_name : option string;
  Usertype : option string
}.

Definition short (rides : list Trip) : list bool :=
  lt_series (Tripduration <$> rides) 120.

Definition round_trip (rides : list Trip) : list bool :=
  eq_series (From_station_id <$> rides) (To_station_id <$> rides).

Definition failed (rides : list Trip) : list bool :=
  mask_and (short rides) (round_trip rides).

Definition cleaned (rides : list Trip) : list Trip :=
  select rides (mask_not (failed rides)).

(** [daily]: it raises when no row is retained and when all retained rows
    start at the same minute. *)
Definition daily (rides : list Trip) : option (list (Z * Z)) :=
  dask_resample resample_D_count (set_index Starttime Trip_id (cleaned rides)).

(** The cell that computes [weekly], as a function of [daily]: the dask
    resampling (it raises on a daily series of a single day), [compute],
    and the pandas reindexing. *)
Definition weekly_of_daily (daily : list (Z * Z))
    : option (list (Z * option Q)) :=
  dask_resample resample_W_mean daily ≫= asfreq_W_SUN.

Definition weekly (rides : list Trip) : option (list (Z * option Q)) :=
  daily rides ≫= weekly_of_daily.

End BuildModel.


(** ** Date strings

    [pd.to_datetime] on the textual forms the notebooks pass to it:
    ["Jan 3, 2017"] (abbreviated month name, day, four-digit year) and
    ["07-20-2017"] (month, day, four-digit year, also with slashes), and
    the ISO form ["2017-07-20"], for the years a timestamp can hold. The
    result is the timestamp of midnight of that date. Every other text is
    outside this function ([None]): the library reads many more forms, and
    what the notebooks do with any text it reads is stated over an
    arbitrary parser, see [LoadModel.forecast_with]. *)

Module Dates.

Definition is_digit (c : ascii) : bool :=
  ((48 <=? nat_of_ascii c) && (nat_of_ascii c <=? 57))%nat.

Fixpoint digits_value (acc : Z) (cs : list ascii) : option Z :=
  match cs with
  | [] => Some acc
  | c :: cs' =>
      if is_digit c
      then digits_value (10 * acc + (Z.of_nat (nat_of_ascii c) - 48)) cs'
      else None
  end.

Definition parse_number (cs : list ascii) : option Z :=
  match cs with
  | [] => None
  | _ :: _ => digits_value 0 cs
  end.

(** The fields of [cs] between separator characters. *)
Fixpoint split_on (sep : ascii → bool) (cs : list ascii) : list (list ascii) :=
  match cs with
  | [] => [[]]
  | c :: cs' =>
      if sep c then [] :: split_on sep cs'
      else match split_on sep cs' with
           | [] => [[c]]
           | f :: fs => (c :: f) :: fs
           end
  end.

Definition month_names : list (string * Z) :=
  [("Jan", 1); ("Feb", 2); ("Mar", 3); ("Apr", 4); ("May", 5); ("Jun", 6);
   ("Jul", 7); ("Aug", 8); ("Sep", 9); ("Oct", 10); ("Nov", 11); ("Dec", 12)]%string.

Definition month_of_name (cs : list ascii) : option Z :=
  (λ found, found.2.2)
    <$> list_find (λ p, p.1 = string_of_list_ascii cs) month_names.

(** The years that lie whole within the range of a timestamp. *)
Definition year_in_range (y : Z) : bool := (1678 <=? y) && (y <=? 2261).

Definition civil (y m d : Z) : option Z :=
  if Calendar.valid_date y m d && year_in_range y
  then Some (Calendar.midnight (Calendar.days_from_civil y m d))
  else None.

Definition year_field (cs : list ascii) : bool := (length cs =? 4)%nat.
Definition short_field (cs : list ascii) : bool := (length cs <=? 2)%nat.

Definition is_dash (c : ascii) : bool :=
  Ascii.eqb c "-" || Ascii.eqb c "/".

Definition is_blank (c : ascii) : bool :=
  Ascii.eqb c " " || Ascii.eqb c ",".

(** ["MM-DD-YYYY"], ["MM/DD/YYYY"], or ["YYYY-MM-DD"] when the first field
    has four digits; the year always has four digits, month and day one
    or two. *)
Definition parse_numeric (cs : list ascii) : option Z :=
  match split_on is_dash cs with
  | [a; b; c] =>
      x ← parse_number a; y ← parse_number b; z ← parse_number c;
      if year_field a && short_field b && short_field c then civil x y z
      else if short_field a && short_field b && year_field c then civil z x y
      else None
  | _ => None
  end.

(** ["Mon D, YYYY"]. *)
Definition parse_named (cs : list ascii) : option Z :=
  match filter (λ f, f ≠ []) (split_on is_blank cs) with
  | [mon; day; year] =>
      m ← month_of_name mon; d ← parse_number day; y ← parse_number year;
      if short_field day && year_field year then civil y m d else None
  | _ => None
  end.

Definition to_datetime (date : string) : option Z :=
  let cs := list_ascii_of_string date in
  match parse_numeric cs with
  | Some t => Some t
  | None => parse_named cs
  end.

(** [dt.to_period('W-SUN').end_time.date()]: the Sunday that ends the
    week containing the timestamp, as a day number. *)
Definition week_end_date (dt : Z) : Z :=
  Calendar.week_end (Calendar.day_of dt).

End Dates.

(** ** build_model.ipynb: the differenced series and the validation split *)

Module Diagnostics.

(** [series.diff()]: every value minus the value of the row before it. The
    first row has no row before it and holds NaN, as does every row where
    one of the two values is missing. Values are exact rationals here; the
    library's are floating-point numbers, so what is proved of [diff] is
    about which rows it has and from which rows each comes. *)
Fixpoint diff_after (prev : option Q) (s : list (Z * option Q))
    : list (Z * option Q) :=
  match s with
  | [] => []
  | (k, v) :: s' =>
      (k, match prev, v with
          | Some a, Some b => Some (Qminus b a)
          | _, _ => None
          end) :: diff_after v s'
  end.

Definition series_diff (s : list (Z * option Q)) : list (Z * option Q) :=
  diff_after None s.

(** [series.dropna()]: the rows whose value is not missing. *)
Definition dropna {V} (s : list (Z * option V)) : list (Z * V) :=
  omap (λ p, (λ v, (p.1, v)) <$> p.2) s.

(** [diff = weekly.diff().dropna()]. *)
Definition diff (weekly : list (Z * option Q)) : list (Z * Q) :=
  dropna (series_diff weekly).

End Diagnostics.

Module Validation.

(** [series.loc[str(y):]] on a series indexed by days: the rows dated from
    January 1st of [y] on. *)
Definition loc_from_year {V} (y : Z) (s : list (Z * V)) : list (Z * V) :=
  filter (λ p, Calendar.days_from_civil y 1 1 ≤ p.1) s.

(** [train = weekly.loc['2015':'2016']] and the rows the validation plot
    shows, [.loc['2017':]]. *)
Definition train {V} (weekly : list (Z * V)) : list (Z * V) :=
  Frame.loc_years 2015 2016 weekly.

Definition held_out {V} (series : list (Z * V)) : list (Z * V) :=
  loc_from_year 2017 series.

End Validation.

(** ** The estimation library

    [SARIMAX(series, order=order)] builds a model specification; [fit]
    estimates its parameters, [filter] runs it with given parameters,
    [predict] queries a results object between two dates, [save] and
    [load] pickle a results object to a named file; [seasonal_decompose],
    [adfuller], [plot_acf] and [plot_pacf] are the diagnostics, [summary]
    the table of a fit, and [hvplot] the plots of a series and of a frame
    of results. The notebooks only call these operations, so they form an
    interface. An operation that works on data can raise ([None]); what
    it needs of the data (enough observations, no missing value, a matrix
    it can invert) is the library's business. The two laws say what the notebooks rely
    on: the parameters of a filtered model are the ones it was given, and
    unpickling a pickled results object gives it back. *)

Module Statsmodels.

Record Model := SARIMAX {
  endog : list (Z * option Q);
  model_order : Z * Z * Z
}.

Class Library := {
  params : Type;
  results : Type;
  prediction : Type;
  report : Type;
  blob : Type;
  seasonal_decompose : list (Z * option Q) → option report;
  adfuller : list (Z * option Q) → option report;
  plot_acf : list (option Q) → Z → option report;
  plot_pacf : list (option Q) → Z → option report;
  fit : Model → option results;
  filter_params : Model → params → option results;
  get_params : results → params;
  summary : results → option report;
  predict_in_sample : results → option report;
  summary_frame : results → option report;
  hvplot_series : list (Z * option Q) → option report;
  hvplot_frame : report → option report;
  predict : results → Z → Z → prediction;
  dumps : results → blob;
  loads : blob → option results;
  get_params_filter :
    ∀ a θ r, filter_params a θ = Some r → get_params r = θ;
  loads_dumps : ∀ r, loads (dumps r) = Some r
}.

Section files.
Context `{Library}.

(** [results.save(fname)] and [statsmodels.api.load(fname)] on a file
    store; loading a file that does not exist raises. *)
Definition save (r : results) (fname : string) (fs : gmap string blob)
    : gmap string blob :=
  <[fname := dumps r]> fs.

Definition load (fname : string) (fs : gmap string blob) : option results :=
  fs !! fname ≫= loads.
End files.

(** The same library with another estimation routine. *)
Definition with_fit (L : Library) (fit' : Model → option (@results L))
    : Library := {|
  params := @params L;
  results := @results L;
  prediction := @prediction L;
  report := @report L;
  blob := @blob L;
  seasonal_decompose := @seasonal_decompose L;
  adfuller := @adfuller L;
  plot_acf := @plot_acf L;
  plot_pacf := @plot_pacf L;
  fit := fit';
  filter_params := @filter_params L;
  get_params := @get_params L;
  summary := @summary L;
  predict_in_sample := @predict_in_sample L;
  summary_frame := @summary_frame L;
  hvplot_series := @hvplot_series L;
  hvplot_frame := @hvplot_frame L;
  predict := @predict L;
  dumps := @dumps L;
  loads := @loads L;
  get_params_filter := @get_params_filter L;
  loads_dumps := @loads_dumps L
|}.

(** A small instance of the interface, for running the notebooks on
    concrete data: "estimation" returns the number of observations it was
    given and raises when there is none, a results object is the model
    with its parameter, a prediction adds the parameter to the number of
    the queried day, the diagnostics report nothing, and pickling stores
    the object itself. *)
Definition example_library : Library := {|
  params := nat;
  results := Model * nat;
  prediction := Z;
  report := unit;
  blob := Model * nat;
  seasonal_decompose := λ _, Some ();
  adfuller := λ _, Some ();
  plot_acf := λ _ _, Some ();
  plot_pacf := λ _ _, Some ();
  fit := λ a, match endog a with
              | [] => None
              | _ :: _ => Some (a, length (endog a))
              end;
  filter_params := λ a θ, Some (a, θ);
  get_params := snd;
  summary := λ _, Some ();
  predict_in_sample := λ _, Some ();
  summary_frame := λ _, Some ();
  hvplot_series := λ _, Some ();
  hvplot_frame := λ _, Some ();
  predict := λ r start _, start + Z.of_nat r.2;
  dumps := id;
  loads := Some;
  get_params_filter := λ a θ r E, eq_sym (f_equal snd (Some_inj _ _ E));
  loads_dumps := λ _, eq_refl
|}.

End Statsmodels.

(** ** build_model.ipynb: diagnostics, fitting, validation and saving *)

Module Fit.
Import Frame Statsmodels.

Section notebook.
Context `{Library}.

(** The names the notebook has bound when it has run. *)
Record Kernel := {
  k_weekly : list (Z * option Q);
  k_diff : list (Z * Q);
  k_model : results;
  k_train : list (Z * option Q);
  k_trained_model : results;
  k_testing_model : results
}.

Definition order : Z * Z * Z :=
  let p := 2 in
  let d := 1 in
  let q := 2 in
  (p, d, q).

(** The cells from [weekly] on, run in order. A statement that raises
    stops the run: nothing after it is bound, and the model file is
    written by the last statement only. The notebook binds [predicted]
    twice; the two plots of the last figure that read the prediction
    frame are one [hvplot_frame] here. *)
Definition run (rides : list BuildModel.Trip) (fs : gmap string blob)
    : option (Kernel * gmap string blob) :=
  weekly ← BuildModel.weekly rides;
  result ← seasonal_decompose weekly;
  _ ← hvplot_frame result;
  _ ← adfuller weekly;
  _ ← plot_acf weekly.*2 60;
  let diff := Diagnostics.diff weekly in
  _ ← plot_acf (Some <$> diff.*2) 60;
  _ ← plot_pacf (Some <$> diff.*2) 60;
  let arima := SARIMAX weekly order in
  model ← fit arima;
  _ ← summary model;
  predicted ← predict_in_sample model;
  _ ← hvplot_series weekly;
  _ ← hvplot_frame predicted;
  let train := loc_years 2015 2016 weekly in
  let arima := SARIMAX train order in
  trained_model ← fit arima;
  let _arima := SARIMAX weekly order in
  testing_model ← filter_params _arima (get_params trained_model);
  predicted ← summary_frame testing_model;
  _ ← hvplot_series weekly;
  _ ← hvplot_frame predicted;
  Some ({| k_weekly := weekly; k_diff := diff; k_model := model;
           k_train := train; k_trained_model := trained_model;
           k_testing_model := testing_model |},
        save testing_model "bike_forecasts.pkl" fs).
End notebook.

End Fit.

(** ** load_model.ipynb *)

Module LoadModel.
Import Statsmodels.

Section notebook.
Context `{Library}.

Definition loaded_model (fs : gmap string blob) : option results :=
  load "bike_forecasts.pkl" fs.

(** [forecast(date)], with the global [loaded_model] and the date parser
    [pd.to_datetime] as parameters; the parser gives the timestamp, to the
    minute, or [None] when it raises. The week of a timestamp depends on
    its calendar day only. *)
Definition forecast_with (to_datetime : string → option Z)
    (loaded_model : results) (date : string) : option prediction :=
  dt ← to_datetime date;
  let sunday := Dates.week_end_date dt in
  Some (predict loaded_model sunday sunday).

(** [forecast] on the date texts that [Dates.to_datetime] covers. *)
Definition forecast (loaded_model : results) (date : string)
    : option prediction :=
  forecast_with Dates.to_datetime loaded_model date.
End notebook.

End LoadModel.


(** ** The specification's vocabulary *)

Module Spec.
Import Frame BuildModel.

(** A failed ride, as the cleaning step's text defines it: from and to
    the same station, and shorter than 120 seconds. *)
Definition failed_ride (r : Trip) : Prop :=
  ∃ s t, From_station_id r = Some s ∧ To_station_id r = Some s
         ∧ Tripduration r = Some t ∧ t < 120.

#[global] Instance failed_ride_dec r : Decision (failed_ride r).
Proof.
  unfold failed_ride.
  destruct (From_station_id r) as [a|];
    [|right; intros (? & ? & ? & ? & ? & ?); discriminate].
  destruct (To_station_id r) as [b|];
    [|right; intros (? & ? & ? & ? & ? & ?); discriminate].
  destruct (Tripduration r) as [t|];
    [|right; intros (? & ? & ? & ? & ? & ?); discriminate].
  destruct (decide (a = b)) as [->|];
    [|right; intros (? & ? & ? & ? & ? & ?); congruence].
  destruct (decide (t < 120)).
  - left. by exists b, t.
  - right. intros (? & ? & ? & ? & ? & ?). simplify_eq. lia.
Defined.

(** The entry of the [failed] mask for one row. *)
Definition failed_row (r : Trip) : bool :=
  lt_scalar (Tripduration r) 120
  && cell_eq (From_station_id r) (To_station_id r).

(** A field the classification reads is missing. *)
Definition missing_field (r : Trip) : Prop :=
  Tripduration r = None ∨ From_station_id r = None ∨ To_station_id r = None.

Definition start_day (r : Trip) : Z := Calendar.day_of (Starttime r).

(** The rows that [daily] and [weekly] hold when their cells return: the
    aggregations themselves, without the resampler's check of the index. *)
Definition daily_rows (rides : list Trip) : list (Z * Z) :=
  resample_D_count (set_index Starttime Trip_id (cleaned rides)).

Definition weekly_of_rows (daily : list (Z * Z))
    : option (list (Z * option Q)) :=
  asfreq_W_SUN (resample_W_mean daily).

Definition weekly_rows (rides : list Trip) : option (list (Z * option Q)) :=
  weekly_of_rows (daily_rows rides).

#[global] Instance Trip_eq_dec : EqDecision Trip.
Proof. solve_decision. Defined.

(** The scenario of three trips on 2016-01-01 between stations 1026 (A)
    and 1032 (B). *)
Definition trip (id start duration from to : Z) : Trip :=
  {| Trip_id := Some id; Starttime := start; Stoptime := None;
     Bikeid := None; Tripduration := Some duration;
     From_station_id := Some from; From_station_name := None;
     To_station_id := Some to; To_station_name := None;
     Usertype := None |}.

(** The rows that start on day [d], that start from day [a] to day [b],
    and that carry a trip id. *)
Definition trips_on (d : Z) (trips : list Trip) : list Trip :=
  filter (λ r, start_day r = d) trips.

Definition trips_between (a b : Z) (trips : list Trip) : list Trip :=
  filter (λ r, a ≤ start_day r ≤ b) trips.

Definition identified (trips : list Trip) : list Trip :=
  filter (λ r, is_Some (Trip_id r)) trips.

Definition number (trips : list Trip) : Z := Z.of_nat (length trips).

(** [series.loc[a:b].sum()] on a series indexed by days. *)
Definition sum_between (a b : Z) (s : list (Z * Z)) : Z :=
  total (filter (λ p, a ≤ p.1 ≤ b) s).*2.

(** The daily counts that fall in the week ending on Sunday [w]: those of
    the Monday six days before [w] up to [w] itself. *)
Definition week_counts (w : Z) (daily : list (Z * Z)) : list Z :=
  (filter (λ p, w - 6 ≤ p.1 ≤ w) daily).*2.

Definition new_year_2016 : Z := Calendar.days_from_civil 2016 1 1.

(** Inputs that span two years of weeks and more: a trip on the first day
    of 2015 and one on 2016-12-25, the last Sunday of 2016, or one on
    2017-02-01; and an input that starts after the training window. *)
Definition rides_2015_2016 : list Trip :=
  [trip 1 (Calendar.midnight (Calendar.days_from_civil 2015 1 1)) 600 1026 1032;
   trip 2 (Calendar.midnight (Calendar.days_from_civil 2016 12 25)) 600 1026 1032].

Definition rides_2015_2017 : list Trip :=
  [trip 1 (Calendar.midnight (Calendar.days_from_civil 2015 1 1)) 600 1026 1032;
   trip 2 (Calendar.midnight (Calendar.days_from_civil 2017 2 1)) 600 1026 1032].

Definition rides_2017_2019 : list Trip :=
  [trip 1 (Calendar.midnight (Calendar.days_from_civil 2017 1 10)) 600 1026 1032;
   trip 2 (Calendar.midnight (Calendar.days_from_civil 2019 2 1)) 600 1026 1032].

(** Two trips nineteen days apart, on Friday 2016-01-01 and on Wednesday
    2016-01-20: no trip starts in the weeks ending on 2016-01-10 and on
    2016-01-17. *)
Definition sparse_rides : list Trip :=
  [trip 1 (Calendar.midnight (Calendar.days_from_civil 2016 1 1)) 600 1026 1032;
   trip 2 (Calendar.midnight (Calendar.days_from_civil 2016 1 20)) 600 1026 1032].

Definition scenario_1 : Trip :=
  trip 15335599 (Calendar.midnight new_year_2016 + 104) 50 1026 1026.
Definition scenario_2 : Trip :=
  trip 15335629 (Calendar.midnight new_year_2016 + 159) 50 1026 1032.
Definition scenario_3 : Trip :=
  trip 15335650 (Calendar.midnight new_year_2016 + 612) 300 1026 1026.

(** A trip whose row has no trip id. *)
Definition unidentified_trip : Trip :=
  {| Trip_id := None; Starttime := Calendar.midnight new_year_2016 + 104;
     Stoptime := None; Bikeid := None; Tripduration := Some 1068;
     From_station_id := Some 1026; From_station_name := None;
     To_station_id := Some 1032; To_station_name := None;
     Usertype := None |}.

End Spec.


(** * Properties *)

(** ** Calendar *)

Section calendar_facts.
Import Calendar.

Example civil_epoch : days_from_civil 1970 1 1 = 0.
Proof. reflexivity. Qed.

Example civil_2017_07_16_sunday : weekday (days_from_civil 2017 7 16) = 6.
Proof. reflexivity. Qed.

Lemma weekday_range n : 0 ≤ weekday n ≤ 6.
Proof. unfold weekday. pose proof (Z.mod_pos_bound (n + 3) 7). lia. Qed.

Lemma week_end_bounds n : n ≤ week_end n ≤ n + 6.
Proof. unfold week_end. pose proof (weekday_range n). lia. Qed.

Lemma week_end_sunday n : is_sunday (week_end n) = true.
Proof.
  unfold is_sunday, week_end, weekday. apply Z.eqb_eq.
  pose proof (Z.div_mod (n + 3) 7 ltac:(lia)) as E.
  pose proof (Z.mod_pos_bound (n + 3) 7 ltac:(lia)) as B.
  replace (n + (6 - (n + 3) mod 7) + 3) with (6 + (n + 3) / 7 * 7) by lia.
  rewrite Z.mod_add by lia. reflexivity.
Qed.

Lemma week_end_of_sunday n : is_sunday n = true → week_end n = n.
Proof. unfold is_sunday, week_end. intros E%Z.eqb_eq. lia. Qed.

Lemma week_end_idemp n : week_end (week_end n) = week_end n.
Proof. apply week_end_of_sunday, week_end_sunday. Qed.

Lemma is_sunday_shift s k : is_sunday s = true → is_sunday (s + 7 * k) = true.
Proof.
  unfold is_sunday, weekday. intros E%Z.eqb_eq. apply Z.eqb_eq.
  replace (s + 7 * k + 3) with (s + 3 + k * 7) by lia.
  by rewrite Z.mod_add by lia.
Qed.

(** The week of a day is the one Sunday among that day and the six after it. *)
Lemma week_end_unique n w :
  is_sunday w = true → n ≤ w ≤ n + 6 → week_end n = w.
Proof.
  intros Hw Hb. pose proof (week_end_sunday n) as Hs.
  pose proof (week_end_bounds n) as Hn.
  unfold is_sunday, weekday in Hw, Hs.
  apply Z.eqb_eq in Hw. apply Z.eqb_eq in Hs.
  pose proof (Z.div_mod (w + 3) 7 ltac:(lia)).
  pose proof (Z.div_mod (week_end n + 3) 7 ltac:(lia)).
  lia.
Qed.

Lemma week_end_iff n w :
  week_end n = w ↔ is_sunday w = true ∧ w - 6 ≤ n ≤ w.
Proof.
  split.
  - intros <-. pose proof (week_end_bounds n). split; [apply week_end_sunday | lia].
  - intros [Hs Hb]. apply week_end_unique; [done | lia].
Qed.

Lemma week_end_mono a b : a ≤ b → week_end a ≤ week_end b.
Proof.
  intros Hab. destruct (Z_le_gt_dec (week_end a) (week_end b)) as [|Hgt]; [done|].
  pose proof (week_end_bounds a). pose proof (week_end_bounds b).
  assert (week_end a = week_end b); [|lia].
  symmetry. apply week_end_unique; [apply week_end_sunday | lia].
Qed.

(** Two Sundays differ by a whole number of weeks. *)
Lemma sundays_apart s w :
  is_sunday s = true → is_sunday w = true → w = s + 7 * ((w - s) / 7).
Proof.
  unfold is_sunday, weekday. intros Hs%Z.eqb_eq Hw%Z.eqb_eq.
  pose proof (Z.div_mod (s + 3) 7 ltac:(lia)).
  pose proof (Z.div_mod (w + 3) 7 ltac:(lia)).
  assert (w - s = ((w + 3) / 7 - (s + 3) / 7) * 7) as -> by lia.
  rewrite Z.div_mul by lia. lia.
Qed.

Lemma day_of_midnight n : day_of (midnight n) = n.
Proof. unfold day_of, midnight, minutes_per_day. by rewrite Z.div_mul. Qed.

End calendar_facts.

(** ** Cleaning *)

Section cleaning_facts.
Import Frame BuildModel Spec.

Lemma failed_rows rides : failed rides = failed_row <$> rides.
Proof.
  unfold failed, short, round_trip, mask_and, lt_series, eq_series.
  induction rides as [|r rides IH]; [done|].
  cbn. f_equal. exact IH.
Qed.

Lemma failed_row_spec r : failed_row r = true ↔ failed_ride r.
Proof.
  unfold failed_row, failed_ride, lt_scalar, cell_eq.
  destruct (Tripduration r) as [t|], (From_station_id r) as [a|],
    (To_station_id r) as [b|]; cbn;
    rewrite ?andb_true_iff, ?Z.ltb_lt, ?Z.eqb_eq;
    (split; [intros H | intros (? & ? & ? & ? & ? & ?); simplify_eq]);
    try done; try (destruct H; done).
  - destruct H as [? ->]. by exists b, t.
Qed.

Lemma failed_row_decide r : failed_row r = bool_decide (failed_ride r).
Proof.
  destruct (failed_row r) eqn:E.
  - symmetry. by apply bool_decide_eq_true, failed_row_spec.
  - symmetry. apply bool_decide_eq_false. rewrite <- failed_row_spec. congruence.
Qed.

Lemma select_not_fmap {A} (f : A → bool) (rows : list A) :
  select rows (mask_not (f <$> rows)) = filter (λ r, f r = false) rows.
Proof.
  unfold mask_not. induction rows as [|r rows IH]; [done|].
  rewrite filter_cons. cbn [fmap list_fmap select]. rewrite IH.
  destruct (f r); cbn [negb]; case_decide; congruence.
Qed.

Lemma cleaned_filter rides :
  cleaned rides = filter (λ r, ¬ failed_ride r) rides.
Proof.
  unfold cleaned. rewrite failed_rows, select_not_fmap.
  apply list_filter_iff. intros r. rewrite <- failed_row_spec.
  destruct (failed_row r); split; congruence.
Qed.

Lemma elem_of_cleaned rides r :
  r ∈ cleaned rides ↔ r ∈ rides ∧ ¬ failed_ride r.
Proof. rewrite cleaned_filter, list_elem_of_filter. tauto. Qed.

Lemma missing_field_not_failed r : missing_field r → ¬ failed_ride r.
Proof.
  unfold missing_field, failed_ride.
  intros [H | [H | H]] (? & ? & ? & ? & ? & ?); congruence.
Qed.

(** C1: the cleaning stage excludes a record exactly when its origin
    station id equals its destination station id and its duration is
    below 120 seconds. Row by row, the [failed] mask holds that
    classification; [cleaned] is the input with exactly the failed rides
    filtered out, the other rows unchanged and in order; and of the three
    scenario trips on one day the second and third are kept, with a daily
    count of 2 for that day. *)
Theorem cleaning_excludes_exactly_failed_rides :
  (∀ rides i r,
      rides !! i = Some r →
      failed rides !! i = Some (bool_decide (failed_ride r)))
  ∧ (∀ rides, cleaned rides = filter (λ r, ¬ failed_ride r) rides)
  ∧ (∀ rides r, r ∈ cleaned rides ↔ r ∈ rides ∧ ¬ failed_ride r)
  ∧ cleaned [scenario_1; scenario_2; scenario_3] = [scenario_2; scenario_3]
  ∧ daily [scenario_1; scenario_2; scenario_3] = Some [(new_year_2016, 2)].
Proof.
  split; [|split; [|split; [|split]]].
  - intros rides i r Hi.
    rewrite failed_rows, list_lookup_fmap, Hi. cbn.
    by rewrite failed_row_decide.
  - apply cleaned_filter.
  - apply elem_of_cleaned.
  - reflexivity.
  - reflexivity.
Qed.

(** C9: a record with a missing duration, origin id or destination id is
    classified as not failed, and the cleaning stage keeps it, as many
    times as it occurs in the input. *)
Theorem missing_fields_are_retained (rides : list Trip) (i : nat) (r : Trip) :
  rides !! i = Some r →
  missing_field r →
  failed rides !! i = Some false
  ∧ r ∈ cleaned rides
  ∧ filter (λ x, x = r) (cleaned rides) = filter (λ x, x = r) rides.
Proof.
  intros Hi Hm. pose proof (missing_field_not_failed r Hm) as Hnf.
  split; [|split].
  - rewrite failed_rows, list_lookup_fmap, Hi. cbn.
    by rewrite failed_row_decide, bool_decide_eq_false_2.
  - apply elem_of_cleaned. split; [|done]. by eapply list_elem_of_lookup_2.
  - rewrite cleaned_filter, list_filter_filter.
    apply list_filter_iff. intros x. split; [tauto|]. by intros ->.
Qed.

Lemma missing_fields_are_retained_witness :
  let r := {| Trip_id := Some 7; Starttime := 0; Stoptime := None;
              Bikeid := None; Tripduration := None;
              From_station_id := Some 1026; From_station_name := None;
              To_station_id := Some 1026; To_station_name := None;
              Usertype := None |} in
  failed [scenario_1; r] !! 1%nat = Some false
  ∧ r ∈ cleaned [scenario_1; r]
  ∧ filter (λ x, x = r) (cleaned [scenario_1; r])
    = filter (λ x, x = r) [scenario_1; r].
Proof.
  intros r.
  apply (missing_fields_are_retained [scenario_1; r] 1 r).
  - reflexivity.
  - left. reflexivity.
Defined.

End cleaning_facts.

(** ** Series and index helpers *)

Section series_facts.
Import Frame.

Lemma index_min_spec l m :
  index_min l = Some m → m ∈ l ∧ ∀ x, x ∈ l → m ≤ x.
Proof.
  destruct l as [|x l]; [done|]. cbn. intros [= <-].
  induction l as [|y l [IHin IHle]]; cbn.
  - split; [left|]. intros z ->%list_elem_of_singleton. lia.
  - split.
    + destruct (Z.min_spec y (foldr Z.min x l)) as [[_ ->]|[_ ->]].
      * right. left.
      * apply elem_of_cons in IHin as [->|?]; [left | right; by right].
    + intros z Hz. assert (z = y ∨ z ∈ x :: l) as [->|Hz'].
      { rewrite !elem_of_cons in *. tauto. }
      * lia.
      * specialize (IHle z Hz'). lia.
Qed.

Lemma index_max_spec l m :
  index_max l = Some m → m ∈ l ∧ ∀ x, x ∈ l → x ≤ m.
Proof.
  destruct l as [|x l]; [done|]. cbn. intros [= <-].
  induction l as [|y l [IHin IHle]]; cbn.
  - split; [left|]. intros z ->%list_elem_of_singleton. lia.
  - split.
    + destruct (Z.max_spec y (foldr Z.max x l)) as [[_ ->]|[_ ->]].
      * apply elem_of_cons in IHin as [->|?]; [left | right; by right].
      * right. left.
    + intros z Hz. assert (z = y ∨ z ∈ x :: l) as [->|Hz'].
      { rewrite !elem_of_cons in *. tauto. }
      * lia.
      * specialize (IHle z Hz'). lia.
Qed.

Lemma index_min_is_Some l : l ≠ [] → is_Some (index_min l).
Proof. destruct l; [done|]. by eexists. Qed.

Lemma index_max_is_Some l : l ≠ [] → is_Some (index_max l).
Proof. destruct l; [done|]. by eexists. Qed.

(** The least and the greatest label are determined by their
    characterisation, whatever the row order. *)
Lemma index_min_unique l m :
  m ∈ l → (∀ x, x ∈ l → m ≤ x) → index_min l = Some m.
Proof.
  intros Hin Hle. destruct (index_min_is_Some l) as [m' Hm'].
  { intros ->. by apply not_elem_of_nil in Hin. }
  destruct (index_min_spec _ _ Hm') as [Hin' Hle'].
  rewrite Hm'. f_equal. specialize (Hle _ Hin'). specialize (Hle' _ Hin). lia.
Qed.

Lemma index_max_unique l m :
  m ∈ l → (∀ x, x ∈ l → x ≤ m) → index_max l = Some m.
Proof.
  intros Hin Hle. destruct (index_max_is_Some l) as [m' Hm'].
  { intros ->. by apply not_elem_of_nil in Hin. }
  destruct (index_max_spec _ _ Hm') as [Hin' Hle'].
  rewrite Hm'. f_equal. specialize (Hle _ Hin'). specialize (Hle' _ Hin). lia.
Qed.

Lemma index_min_perm l l' : l ≡ₚ l' → index_min l = index_min l'.
Proof.
  intros Hp. destruct (index_min l') as [m|] eqn:E.
  - destruct (index_min_spec _ _ E) as [Hin Hle].
    apply index_min_unique; [by rewrite Hp|].
    intros x Hx. apply Hle. by rewrite <- Hp.
  - destruct l'; [|done]. by apply Permutation_nil_r in Hp as ->.
Qed.

Lemma index_max_perm l l' : l ≡ₚ l' → index_max l = index_max l'.
Proof.
  intros Hp. destruct (index_max l') as [m|] eqn:E.
  - destruct (index_max_spec _ _ E) as [Hin Hle].
    apply index_max_unique; [by rewrite Hp|].
    intros x Hx. apply Hle. by rewrite <- Hp.
  - destruct l'; [|done]. by apply Permutation_nil_r in Hp as ->.
Qed.

(** Reading a series built over a list of labels. *)
Lemma get_tabulate {V} (f : Z → V) (labels : list Z) (k : Z) :
  get k ((λ x, (x, f x)) <$> labels)
  = if decide (k ∈ labels) then Some (f k) else None.
Proof.
  induction labels as [|x labels IH]; cbn.
  - by rewrite decide_False by apply not_elem_of_nil.
  - destruct (Z.eqb_spec k x) as [->|Hne].
    + by rewrite decide_True by left.
    + rewrite IH. destruct (decide (k ∈ labels)).
      * by rewrite decide_True by by right.
      * rewrite decide_False; [done|].
        intros [?|?]%elem_of_cons; done.
Qed.

Lemma fst_tabulate {V} (f : Z → V) (labels : list Z) :
  ((λ x, (x, f x)) <$> labels).*1 = labels.
Proof. rewrite <- list_fmap_compose. apply list_fmap_id. Qed.

Lemma filter_ext_elem {A} (P Q : A → Prop)
    `{∀ x, Decision (P x)} `{∀ x, Decision (Q x)} (l : list A) :
  (∀ x, x ∈ l → P x ↔ Q x) → filter P l = filter Q l.
Proof.
  induction l as [|x l IH]; [done|]. intros Hl.
  rewrite !filter_cons, IH by (intros; apply Hl; by right).
  pose proof (Hl x ltac:(left)).
  destruct (decide (P x)), (decide (Q x)); tauto.
Qed.

Lemma length_filter_or {A} (P Q : A → Prop)
    `{∀ x, Decision (P x)} `{∀ x, Decision (Q x)} (l : list A) :
  (∀ x, P x → Q x → False) →
  length (filter (λ x, P x ∨ Q x) l)
  = (length (filter P l) + length (filter Q l))%nat.
Proof.
  intros Hd. induction l as [|x l IH]; [done|].
  rewrite !filter_cons.
  destruct (decide (P x)), (decide (Q x)), (decide (P x ∨ Q x));
    cbn; rewrite ?IH; try lia; exfalso; first [by eapply Hd | tauto].
Qed.

(** Per-label counts over distinct labels add up to the count of the
    rows carrying one of the labels. *)
Lemma sum_counts {A} (key : A → Z) (rows : list A) (labels : list Z) :
  NoDup labels →
  total ((λ k, Z.of_nat (length (filter (λ r, key r = k) rows))) <$> labels)
  = Z.of_nat (length (filter (λ r, key r ∈ labels) rows)).
Proof.
  induction 1 as [|k labels Hk Hnd IH]; cbn.
  - rewrite (filter_ext_elem _ (λ _, False)).
    + by induction rows.
    + intros r _. split; [apply not_elem_of_nil | done].
  - unfold total in IH. rewrite IH.
    rewrite (filter_ext_elem (λ r, key r ∈ k :: labels)
               (λ r, key r = k ∨ key r ∈ labels)).
    + rewrite length_filter_or; [lia|]. intros r -> ?. done.
    + intros r _. apply elem_of_cons.
Qed.

End series_facts.

(** ** Daily counts *)

Section daily_facts.
Import Frame BuildModel Spec.

Lemma resample_D_count_perm s s' :
  s ≡ₚ s' → resample_D_count s = resample_D_count s'.
Proof.
  intros Hp. unfold resample_D_count.
  assert (Calendar.day_of <$> s.*1 ≡ₚ Calendar.day_of <$> s'.*1) as Hd
    by by rewrite Hp.
  rewrite (index_min_perm _ _ Hd), (index_max_perm _ _ Hd).
  destruct (index_min (Calendar.day_of <$> s'.*1)),
    (index_max (Calendar.day_of <$> s'.*1)); try done.
  apply list_fmap_ext. intros _ d _. f_equal. unfold count. f_equal.
  by rewrite Hp.
Qed.

Lemma daily_unsorted rides :
  daily_rows rides
  = resample_D_count ((λ r, (Starttime r, Trip_id r)) <$> cleaned rides).
Proof.
  unfold daily_rows, set_index. apply resample_D_count_perm, merge_sort_Permutation.
Qed.


Lemma spans_perm l l' : l ≡ₚ l' → spans l = spans l'.
Proof.
  intros Hp. unfold spans.
  by rewrite (index_min_perm _ _ Hp), (index_max_perm _ _ Hp).
Qed.


Lemma set_index_labels {A V} (key : A → Z) (col : A → V) (rows : list A) :
  (set_index key col rows).*1 ≡ₚ key <$> rows.
Proof.
  unfold set_index. rewrite merge_sort_Permutation.
  by rewrite <- list_fmap_compose.
Qed.

(** [daily] returns when two retained rows start at different minutes,
    and then holds the rows of the day counts. *)
Lemma daily_eq rides :
  daily rides
  = if spans (Starttime <$> cleaned rides) then Some (daily_rows rides)
    else None.
Proof.
  unfold daily, dask_resample.
  by rewrite (spans_perm _ _ (set_index_labels Starttime Trip_id _)).
Qed.

Lemma daily_Some rides ds :
  daily rides = Some ds
  ↔ spans (Starttime <$> cleaned rides) = true ∧ ds = daily_rows rides.
Proof.
  rewrite daily_eq. destruct (spans _).
  - split; [by intros [= <-] | by intros [_ ->]].
  - split; [done | by intros [? _]].
Qed.

Lemma daily_rows_of rides ds : daily rides = Some ds → ds = daily_rows rides.
Proof. by intros [_ ?]%daily_Some. Qed.


Lemma count_trips_on d (trips : list Trip) :
  count (filter (λ p, Calendar.day_of p.1 = d)
           ((λ r, (Starttime r, Trip_id r)) <$> trips)).*2
  = number (trips_on d (identified trips)).
Proof.
  unfold count, number, trips_on, identified. f_equal.
  induction trips as [|r trips IH]; [done|].
  rewrite fmap_cons, !filter_cons. cbn [fst].
  fold (start_day r).
  destruct (decide (start_day r = d)) as [Hd|Hd].
  - rewrite fmap_cons, filter_cons. cbn [snd].
    destruct (decide (is_Some (Trip_id r))).
    + rewrite filter_cons_True by done. cbn [length]. f_equal. exact IH.
    + exact IH.
  - destruct (decide (is_Some (Trip_id r))); [|exact IH].
    rewrite filter_cons_False by done. exact IH.
Qed.

(** The daily series written out on the retained trips. *)
Lemma daily_tabulate rides :
  daily_rows rides
  = match index_min (start_day <$> cleaned rides),
          index_max (start_day <$> cleaned rides) with
    | Some lo, Some hi =>
        (λ d, (d, number (trips_on d (identified (cleaned rides)))))
          <$> date_range_D lo hi
    | _, _ => []
    end.
Proof.
  rewrite daily_unsorted. unfold resample_D_count.
  assert (Calendar.day_of <$> ((λ r, (Starttime r, Trip_id r))
                                 <$> cleaned rides).*1
          = start_day <$> cleaned rides) as ->
    by by rewrite <- !list_fmap_compose.
  destruct (index_min (start_day <$> cleaned rides)),
    (index_max (start_day <$> cleaned rides)); try done.
  apply list_fmap_ext. intros _ d _. by rewrite count_trips_on.
Qed.

Lemma filter_tabulate {V} (f : Z → V) (P : Z → Prop)
    `{∀ x, Decision (P x)} (labels : list Z) :
  filter (λ p, P p.1) ((λ x, (x, f x)) <$> labels)
  = (λ x, (x, f x)) <$> filter P labels.
Proof.
  induction labels as [|x labels IH]; [done|].
  rewrite fmap_cons, !filter_cons. cbn [fst].
  destruct (decide (P x)); by rewrite ?fmap_cons, IH.
Qed.

Lemma snd_tabulate {V} (f : Z → V) (labels : list Z) :
  ((λ x, (x, f x)) <$> labels).*2 = f <$> labels.
Proof. by rewrite <- list_fmap_compose. Qed.

Lemma span_of_trips (trips : list Trip) lo hi :
  index_min (start_day <$> trips) = Some lo →
  index_max (start_day <$> trips) = Some hi →
  ∀ d, lo ≤ d ≤ hi
       ↔ ∃ r1 r2, r1 ∈ trips ∧ r2 ∈ trips ∧ start_day r1 ≤ d ≤ start_day r2.
Proof.
  intros [Hlo Hmin]%index_min_spec [Hhi Hmax]%index_max_spec d.
  apply list_elem_of_fmap in Hlo as (r1 & -> & H1).
  apply list_elem_of_fmap in Hhi as (r2 & -> & H2).
  split.
  - intros Hd. by exists r1, r2.
  - intros (x1 & x2 & Hx1 & Hx2 & Hd).
    pose proof (Hmin (start_day x1) (list_elem_of_fmap_2 _ _ _ Hx1)).
    pose proof (Hmax (start_day x2) (list_elem_of_fmap_2 _ _ _ Hx2)).
    lia.
Qed.

Lemma daily_cases rides :
  (cleaned rides = [] ∧ daily_rows rides = [])
  ∨ ∃ lo hi,
      index_min (start_day <$> cleaned rides) = Some lo
      ∧ index_max (start_day <$> cleaned rides) = Some hi
      ∧ daily_rows rides
        = (λ d, (d, number (trips_on d (identified (cleaned rides)))))
            <$> date_range_D lo hi.
Proof.
  rewrite daily_tabulate. destruct (cleaned rides) as [|r kept] eqn:E.
  - left. done.
  - right. cbn [fmap list_fmap index_min index_max]. eauto.
Qed.

Lemma elem_of_date_range_D lo hi d : d ∈ date_range_D lo hi ↔ lo ≤ d ≤ hi.
Proof. unfold date_range_D. rewrite elem_of_seqZ. lia. Qed.

Lemma daily_sum_between rides a b :
  sum_between a b (daily_rows rides)
  = number (trips_between a b (identified (cleaned rides))).
Proof.
  destruct (daily_cases rides) as [[-> ->]|(lo & hi & Hlo & Hhi & ->)]; [done|].
  unfold sum_between, number, trips_between, trips_on.
  pose proof (filter_tabulate
                (λ d, Z.of_nat (length (filter (λ r, start_day r = d)
                                          (identified (cleaned rides)))))
                (λ d, a ≤ d ≤ b) (date_range_D lo hi)) as E.
  cbn beta in E. rewrite E, snd_tabulate. clear E.
  rewrite (sum_counts start_day)
    by apply NoDup_filter, NoDup_seqZ.
  f_equal. f_equal. apply filter_ext_elem. intros r Hr.
  rewrite list_elem_of_filter, elem_of_date_range_D.
  rewrite (span_of_trips _ _ _ Hlo Hhi).
  apply list_elem_of_filter in Hr as [_ Hr].
  split; [tauto|]. intros Hab. split; [done|]. exists r, r. split_and!; [done..|lia|lia].
Qed.

(** The daily series, when its cell returns, has exactly one entry for
    every day from the first to the last start day of the retained trips
    and none outside; the entry of a day is the number of retained trips
    with a trip id that start on that day; so the daily counts of any date
    range sum to the number of retained trips with a trip id that start in
    the range. When every retained row has a trip id these are all the
    retained trips. *)
Lemma daily_counts_identified_retained_trips (rides : list Trip) ds :
  daily rides = Some ds →
  NoDup ds.*1
  ∧ (∀ d, is_Some (get d ds)
          ↔ ∃ r1 r2, r1 ∈ cleaned rides ∧ r2 ∈ cleaned rides
                     ∧ start_day r1 ≤ d ≤ start_day r2)
  ∧ (∀ d n, get d ds = Some n →
            n = number (trips_on d (identified (cleaned rides))))
  ∧ (∀ a b, sum_between a b ds
            = number (trips_between a b (identified (cleaned rides))))
  ∧ (Forall (λ r, is_Some (Trip_id r)) (cleaned rides) →
     identified (cleaned rides) = cleaned rides).
Proof.
  intros ->%daily_rows_of. split_and!.
  - destruct (daily_cases rides) as [[_ ->]|(lo & hi & _ & _ & ->)].
    + constructor.
    + rewrite fst_tabulate. apply NoDup_seqZ.
  - intros d.
    destruct (daily_cases rides) as [[E ->]|(lo & hi & Hlo & Hhi & ->)].
    + rewrite E. cbn. split; [by intros [? ?]|].
      intros (r & _ & []%not_elem_of_nil & _).
    + rewrite get_tabulate, <- (span_of_trips _ _ _ Hlo Hhi),
        <- elem_of_date_range_D.
      case_decide; split; try done; by intros [? ?].
  - intros d n.
    destruct (daily_cases rides) as [[_ ->]|(lo & hi & _ & _ & ->)]; [done|].
    rewrite get_tabulate. case_decide; [congruence | done].
  - apply daily_sum_between.
  - intros Hall. unfold identified.
    induction Hall as [|r kept Hr _ IH]; [done|].
    by rewrite filter_cons_True, IH.
Qed.

(** C7: the daily count of a day is meant to be the number of rides taken
    that day, but it is taken over the trip-id column and skips the rows
    whose trip id is missing. Two retained trips start on 2016-01-01, at
    different minutes, one of them without a trip id: the count of that
    day is 1, and so is the sum of the counts over the day, where 2
    retained records start on it. *)
Theorem daily_undercounts_trip_without_id :
  cleaned [unidentified_trip; scenario_2] = [unidentified_trip; scenario_2]
  ∧ Starttime unidentified_trip ≠ Starttime scenario_2
  ∧ daily [unidentified_trip; scenario_2] = Some [(new_year_2016, 1)]
  ∧ number (trips_on new_year_2016 (cleaned [unidentified_trip; scenario_2]))
    = 2
  ∧ sum_between new_year_2016 new_year_2016 [(new_year_2016, 1)] = 1
  ∧ number (trips_between new_year_2016 new_year_2016
              (cleaned [unidentified_trip; scenario_2])) = 2.
Proof. repeat split. intros E. vm_compute in E. discriminate E. Qed.

End daily_facts.

(** ** Weekly frequency *)

Section weekly_facts.
Import Calendar Frame BuildModel Spec.

Lemma progression_strict_weekly s m n :
  is_sunday s = true →
  strict_weekly ((λ k, s + 7 * k) <$> seqZ m (Z.of_nat n)) = true.
Proof.
  intros Hs. unfold strict_weekly. apply andb_true_iff. split.
  - apply forallb_forall. intros x Hx%list_elem_of_In.
    apply list_elem_of_fmap in Hx as (k & -> & _). by apply is_sunday_shift.
  - revert m. induction n as [|n IH]; intros m; [done|].
    rewrite seqZ_cons by lia. rewrite fmap_cons.
    replace (Z.pred (Z.of_nat (S n))) with (Z.of_nat n) by lia.
    specialize (IH (Z.succ m)). destruct n as [|n]; [done|].
    rewrite seqZ_cons in * by lia. rewrite fmap_cons in *.
    cbn [weekly_steps]. apply andb_true_iff. split; [|exact IH].
    apply Z.eqb_eq. lia.
Qed.

Lemma date_range_W_SUN_strict lo hi :
  strict_weekly (date_range_W_SUN lo hi) = true.
Proof.
  unfold date_range_W_SUN.
  destruct (Z_le_gt_dec 0 ((hi - week_end lo) / 7 + 1)) as [Hn|Hn].
  - rewrite <- (Z2Nat.id _ Hn).
    apply progression_strict_weekly, week_end_sunday.
  - by rewrite seqZ_nil by lia.
Qed.

Lemma weekly_steps_progression a tl :
  weekly_steps (a :: tl) = true →
  a :: tl = (λ k, a + 7 * k) <$> seqZ 0 (Z.of_nat (S (length tl))).
Proof.
  revert a. induction tl as [|b tl IH]; intros a Hst.
  - change (Z.of_nat (S (length (@nil Z)))) with 1.
    rewrite seqZ_cons, seqZ_nil by lia. cbn. f_equal. lia.
  - cbn [weekly_steps] in Hst. apply andb_true_iff in Hst as [Hb%Z.eqb_eq Hst].
    specialize (IH b Hst).
    rewrite seqZ_cons by lia. rewrite fmap_cons. f_equal; [lia|].
    replace (Z.pred (Z.of_nat (S (length (b :: tl)))))
      with (Z.of_nat (S (length tl))) by (cbn [length]; lia).
    rewrite IH at 1. change (Z.succ 0) with (1 + 0).
    rewrite <- fmap_add_seqZ, <- list_fmap_compose.
    apply list_fmap_ext. intros _ k _. cbn. lia.
Qed.

Lemma progression_NoDup a n : NoDup ((λ k, a + 7 * k) <$> seqZ 0 n).
Proof. apply NoDup_fmap_2, NoDup_seqZ. intros x y ?. lia. Qed.

Lemma elem_of_progression a n x :
  x ∈ (λ k, a + 7 * k) <$> seqZ 0 n ↔ ∃ k, x = a + 7 * k ∧ 0 ≤ k < n.
Proof.
  rewrite list_elem_of_fmap. setoid_rewrite elem_of_seqZ.
  split; intros (k & ? & ?); exists k; split; (done || lia).
Qed.

Lemma elem_of_date_range_W_SUN lo hi w :
  w ∈ date_range_W_SUN lo hi
  ↔ is_sunday w = true ∧ week_end lo ≤ w ≤ hi.
Proof.
  unfold date_range_W_SUN. rewrite elem_of_progression.
  pose proof (week_end_sunday lo) as Hs.
  split.
  - intros (k & -> & Hk). split; [by apply is_sunday_shift|].
    pose proof (Z.mul_div_le (hi - week_end lo) 7 ltac:(lia)). lia.
  - intros [Hw Hb]. exists ((w - week_end lo) / 7).
    split; [by apply sundays_apart|].
    pose proof (Z.div_le_mono (w - week_end lo) (hi - week_end lo) 7
                  ltac:(lia) ltac:(lia)).
    pose proof (Z.div_pos (w - week_end lo) 7 ltac:(lia) ltac:(lia)).
    lia.
Qed.

Lemma get_NoDup {V} (s : list (Z * V)) k v :
  NoDup s.*1 → (k, v) ∈ s → get k s = Some v.
Proof.
  induction s as [|[k' v'] s IH]; cbn; [by intros _ ?%not_elem_of_nil|].
  intros [Hk' Hnd]%NoDup_cons [[= -> ->]|Hin]%elem_of_cons.
  - by rewrite Z.eqb_refl.
  - destruct (Z.eqb_spec k k') as [->|_]; [|by apply IH].
    destruct Hk'. apply list_elem_of_fmap. by exists (k', v).
Qed.

Lemma reindex_self {V} (s : list (Z * option V)) :
  NoDup s.*1 → reindex s s.*1 = Some s.
Proof.
  intros Hnd. unfold reindex. rewrite decide_True by done. f_equal.
  rewrite <- list_fmap_compose. etrans; [|apply list_fmap_id].
  apply list_fmap_ext. intros i [k v] Hi. cbn.
  by rewrite (get_NoDup s k v Hnd) by by eapply list_elem_of_lookup_2.
Qed.

(** Reindexing a series whose index already is strict weekly returns it. *)
Lemma asfreq_strict_weekly {V} (s : list (Z * option V)) :
  strict_weekly s.*1 = true → asfreq_W_SUN s = Some s.
Proof.
  intros Hst. unfold asfreq_W_SUN.
  destruct (s.*1) as [|a tl] eqn:E.
  { by destruct s. }
  apply andb_true_iff in Hst as [Hsun Hst].
  cbn [forallb] in Hsun. apply andb_true_iff in Hsun as [Ha _].
  pose proof (weekly_steps_progression a tl Hst) as Hidx.
  set (n := Z.of_nat (S (length tl))) in *.
  assert (1 ≤ n) as Hn by (unfold n; lia).
  rewrite (index_min_unique (a :: tl) a).
  2: { left. }
  2: { intros x. rewrite Hidx at 1. intros (k & -> & ?)%elem_of_progression. lia. }
  rewrite (index_max_unique (a :: tl) (a + 7 * (n - 1))).
  2: { rewrite Hidx at 1. apply elem_of_progression. exists (n - 1). lia. }
  2: { intros x. rewrite Hidx at 1. intros (k & -> & ?)%elem_of_progression. lia. }
  assert (date_range_W_SUN a (a + 7 * (n - 1)) = a :: tl) as ->.
  { unfold date_range_W_SUN. rewrite (week_end_of_sunday a Ha).
    replace (a + 7 * (n - 1) - a) with ((n - 1) * 7) by lia.
    rewrite Z.div_mul by lia.
    replace (n - 1 + 1) with n by lia. by rewrite <- Hidx. }
  rewrite <- E. apply reindex_self. rewrite E, Hidx. apply progression_NoDup.
Qed.

Lemma asfreq_index_strict {V} (s s' : list (Z * option V)) :
  asfreq_W_SUN s = Some s' → strict_weekly s'.*1 = true.
Proof.
  unfold asfreq_W_SUN, reindex.
  destruct (index_min s.*1), (index_max s.*1); try by intros [= <-].
  case_decide; [|done]. intros [= <-].
  rewrite fst_tabulate. apply date_range_W_SUN_strict.
Qed.

(** C8: reindexing to week-ending-Sunday frequency leaves a series whose
    index already is strict weekly and Sunday-anchored exactly as it is. *)
Theorem asfreq_idempotent {V} (s : list (Z * option V)) :
  strict_weekly s.*1 = true → asfreq_W_SUN s = Some s.
Proof. apply asfreq_strict_weekly. Qed.

Lemma asfreq_idempotent_witness :
  strict_weekly [(3, Some 1%Q); (10, None); (17, Some 2%Q)].*1 = true
  ∧ asfreq_W_SUN [(3, Some 1%Q); (10, None); (17, Some 2%Q)]
    = Some [(3, Some 1%Q); (10, None); (17, Some 2%Q)].
Proof.
  split; [reflexivity|].
  apply (asfreq_idempotent [(3, Some 1%Q); (10, None); (17, Some 2%Q)]).
  reflexivity.
Defined.

(** Reindexing twice is reindexing once. *)
Lemma asfreq_twice {V} (s s' : list (Z * option V)) :
  asfreq_W_SUN s = Some s' → asfreq_W_SUN s' = Some s'.
Proof. intros Hs. by eapply asfreq_strict_weekly, asfreq_index_strict. Qed.

Lemma resample_W_mean_cases (daily : list (Z * Z)) :
  (daily = [] ∧ resample_W_mean daily = [])
  ∨ ∃ lo hi,
      index_min daily.*1 = Some lo ∧ index_max daily.*1 = Some hi
      ∧ resample_W_mean daily
        = (λ w, (w, mean (filter (λ p, week_end p.1 = w) daily).*2))
            <$> date_range_W_SUN lo (week_end hi).
Proof.
  unfold resample_W_mean. destruct daily as [|p daily].
  - by left.
  - right. cbn [fmap list_fmap index_min index_max]. eauto.
Qed.

Lemma resample_W_mean_strict daily :
  strict_weekly (resample_W_mean daily).*1 = true.
Proof.
  destruct (resample_W_mean_cases daily) as [[_ ->]|(lo & hi & _ & _ & ->)];
    [done|].
  rewrite fst_tabulate. apply date_range_W_SUN_strict.
Qed.

(** The weekly series is the resampled one: its index needs no filling. *)
Lemma weekly_of_rows_resample daily :
  weekly_of_rows daily = Some (resample_W_mean daily).
Proof. apply asfreq_strict_weekly, resample_W_mean_strict. Qed.

Lemma weekly_of_daily_eq daily :
  weekly_of_daily daily
  = if spans daily.*1 then Some (resample_W_mean daily) else None.
Proof.
  unfold weekly_of_daily, dask_resample. destruct (spans _); [|done].
  apply weekly_of_rows_resample.
Qed.

(** [weekly] returns when [daily] does and has rows on two days, and
    then holds the rows of the weekly means. *)
Lemma weekly_Some rides ws :
  weekly rides = Some ws
  ↔ daily rides = Some (daily_rows rides)
    ∧ spans (daily_rows rides).*1 = true
    ∧ ws = resample_W_mean (daily_rows rides).
Proof.
  unfold weekly. rewrite daily_eq. destruct (spans (_ <$> _)); cbn.
  - rewrite weekly_of_daily_eq. destruct (spans _).
    + split; [by intros [= <-] | by intros (_ & _ & ->)].
    + split; [done | by intros (_ & ? & _)].
  - split; [done | by intros (? & _)].
Qed.

Lemma weekly_rows_of rides ws :
  weekly rides = Some ws → weekly_rows rides = Some ws.
Proof.
  intros (_ & _ & ->)%weekly_Some. apply weekly_of_rows_resample.
Qed.

Lemma weekly_daily rides ws :
  weekly rides = Some ws → daily rides = Some (daily_rows rides).
Proof. by intros (? & _)%weekly_Some. Qed.


Lemma week_counts_bin w daily :
  is_sunday w = true →
  (filter (λ p, week_end p.1 = w) daily).*2 = week_counts w daily.
Proof.
  intros Hw. unfold week_counts. f_equal. apply list_filter_iff.
  intros p. rewrite week_end_iff. tauto.
Qed.

Lemma span_of_weeks (daily : list (Z * Z)) lo hi w :
  index_min daily.*1 = Some lo → index_max daily.*1 = Some hi →
  week_end lo ≤ w ≤ week_end hi
  ↔ ∃ p1 p2, p1 ∈ daily ∧ p2 ∈ daily ∧ week_end p1.1 ≤ w ≤ week_end p2.1.
Proof.
  intros [Hlo Hmin]%index_min_spec [Hhi Hmax]%index_max_spec.
  apply list_elem_of_fmap in Hlo as (p1 & -> & H1).
  apply list_elem_of_fmap in Hhi as (p2 & -> & H2).
  split.
  - intros Hw. by exists p1, p2.
  - intros (x1 & x2 & Hx1 & Hx2 & Hw).
    pose proof (week_end_mono _ _ (Hmin x1.1 (list_elem_of_fmap_2 _ _ _ Hx1))).
    pose proof (week_end_mono _ _ (Hmax x2.1 (list_elem_of_fmap_2 _ _ _ Hx2))).
    lia.
Qed.

Lemma weekly_steps_NoDup idx : strict_weekly idx = true → NoDup idx.
Proof.
  intros [_ Hst]%andb_true_iff. destruct idx as [|a tl]; [constructor|].
  rewrite (weekly_steps_progression a tl Hst). apply progression_NoDup.
Qed.

Lemma resample_W_mean_dom (daily : list (Z * Z)) w :
  is_Some (get w (resample_W_mean daily))
  ↔ is_sunday w = true
    ∧ ∃ p1 p2, p1 ∈ daily ∧ p2 ∈ daily ∧ week_end p1.1 ≤ w ≤ week_end p2.1.
Proof.
  destruct (resample_W_mean_cases daily)
    as [[-> ->]|(lo & hi & Hlo & Hhi & ->)].
  - cbn. split; [by intros [? ?]|].
    intros (_ & p & _ & []%not_elem_of_nil & _).
  - rewrite get_tabulate, <- (span_of_weeks _ _ _ _ Hlo Hhi),
      <- elem_of_date_range_W_SUN.
    case_decide; split; try done; by intros [? ?].
Qed.

Lemma resample_W_mean_value (daily : list (Z * Z)) w v :
  get w (resample_W_mean daily) = Some v → v = mean (week_counts w daily).
Proof.
  intros Hget.
  assert (is_sunday w = true) as Hw by (apply (resample_W_mean_dom daily); by eexists).
  revert Hget.
  destruct (resample_W_mean_cases daily)
    as [[-> ->]|(lo & hi & Hlo & Hhi & ->)]; [done|].
  rewrite get_tabulate. case_decide; [|done].
  intros [= <-]. by rewrite week_counts_bin.
Qed.

(** A daily series with a hole of two weeks: the week in between is kept,
    with the missing value. *)
Example week_without_daily_rows :
  weekly_of_daily [(days_from_civil 2016 1 3, 5); (days_from_civil 2016 1 17, 2)]
  = Some [(days_from_civil 2016 1 3, Some (5 # 1));
          (days_from_civil 2016 1 10, None);
          (days_from_civil 2016 1 17, Some (2 # 1))].
Proof. reflexivity. Qed.

(** The daily series of the notebook has a row for every day between its
    first and last day, with count 0 when no trip starts on it. So each
    week of its weekly series has daily rows, no entry is missing, and a
    week without trips has mean 0. *)
Lemma weekly_has_no_missing_value rides ws w v :
  weekly_rows rides = Some ws → get w ws = Some v → v ≠ None.
Proof.
  unfold weekly_rows. rewrite weekly_of_rows_resample. intros [= <-] Hget.
  rewrite (resample_W_mean_value _ _ _ Hget).
  assert (is_Some (get w (resample_W_mean (daily_rows rides)))) as Hdom by by eexists.
  apply resample_W_mean_dom in Hdom as (Hw & p1 & p2 & H1 & H2 & Hspan).
  destruct (daily_cases rides) as [[_ E]|(lo & hi & _ & _ & E)];
    rewrite E in *; [by apply not_elem_of_nil in H1|].
  apply list_elem_of_fmap in H1 as (d1 & -> & H1%elem_of_date_range_D).
  apply list_elem_of_fmap in H2 as (d2 & -> & H2%elem_of_date_range_D).
  cbn [fst] in Hspan.
  pose proof (week_end_bounds d1). pose proof (week_end_bounds d2).
  set (f := λ d, (d, number (trips_on d (identified (cleaned rides))))) in *.
  assert (f (Z.max lo (w - 6))
          ∈ filter (λ p, w - 6 ≤ p.1 ≤ w) (f <$> date_range_D lo hi)) as Hin.
  { apply list_elem_of_filter. split; [cbn; lia|].
    apply list_elem_of_fmap_2, elem_of_date_range_D. lia. }
  unfold week_counts.
  destruct (filter _ _) as [|p l]; [by apply not_elem_of_nil in Hin|done].
Qed.

End weekly_facts.

(** ** Forecasting *)

Section forecast_facts.
Import Calendar Dates Statsmodels LoadModel.
Context `{Library}.

Lemma forecast_with_eq (parse : string → option Z) (m : results)
    (date : string) (dt : Z) :
  parse date = Some dt →
  forecast_with parse m date
  = Some (predict m (week_end_date dt) (week_end_date dt)).
Proof. intros Hdt. unfold forecast_with. by rewrite Hdt. Qed.

Lemma forecast_eq (m : results) (date : string) (dt : Z) :
  to_datetime date = Some dt →
  forecast m date = Some (predict m (week_end_date dt) (week_end_date dt)).
Proof. apply forecast_with_eq. Qed.

(** C2: whatever timestamps the date parser gives for the texts it reads,
    [forecast] queries the model at the single point start = end = the
    Sunday that ends the week containing the input date, the one Sunday
    among the input day and the six days after it; so two date texts in
    the same Sunday-ending week get the same prediction, and a text the
    parser refuses gets none. In particular "Jan 3, 2017" and
    "Jan 4, 2017" are both answered by the prediction for the week ending
    Sunday 2017-01-08. *)
Theorem forecast_same_week (parse : string → option Z) (m : results) :
  (∀ date1 date2 dt1 dt2,
      parse date1 = Some dt1 →
      parse date2 = Some dt2 →
      week_end (day_of dt1) = week_end (day_of dt2) →
      forecast_with parse m date1 = forecast_with parse m date2)
  ∧ (∀ date dt,
        parse date = Some dt →
        ∃ sunday,
          forecast_with parse m date = Some (predict m sunday sunday)
          ∧ is_sunday sunday = true
          ∧ day_of dt ≤ sunday ≤ day_of dt + 6
          ∧ ∀ s, is_sunday s = true → day_of dt ≤ s ≤ day_of dt + 6 →
                 s = sunday)
  ∧ (∀ date, parse date = None → forecast_with parse m date = None)
  ∧ forecast m "Jan 3, 2017" = forecast m "Jan 4, 2017"
  ∧ forecast m "Jan 3, 2017"
    = Some (predict m (days_from_civil 2017 1 8) (days_from_civil 2017 1 8)).
Proof.
  split_and!.
  - intros date1 date2 dt1 dt2 H1 H2 Hw.
    rewrite (forecast_with_eq parse m date1 dt1 H1),
      (forecast_with_eq parse m date2 dt2 H2).
    unfold week_end_date. by rewrite Hw.
  - intros date dt Hdt. exists (week_end_date dt).
    split; [by apply forecast_with_eq|]. unfold week_end_date.
    split; [apply week_end_sunday|]. split; [apply week_end_bounds|].
    intros s Hs Hb. symmetry. apply week_end_unique; [done|lia].
  - intros date Hdt. unfold forecast_with. by rewrite Hdt.
  - reflexivity.
  - reflexivity.
Qed.

(** C3, amended: "07-20-2017" is a Thursday, and its forecast is the
    model's prediction for the week ending Sunday 2017-07-23, the same as
    for every date from 07-17-2017 to 07-23-2017; "07-16-2017" is itself
    a Sunday, and its forecast is the prediction for 2017-07-16, the week
    before. *)
Theorem forecast_jul_20_is_week_of_jul_23 (m : results) :
  weekday (days_from_civil 2017 7 20) = 3
  ∧ weekday (days_from_civil 2017 7 16) = 6
  ∧ forecast m "07-20-2017"
    = Some (predict m (days_from_civil 2017 7 23) (days_from_civil 2017 7 23))
  ∧ forecast m "07-20-2017" = forecast m "07-17-2017"
  ∧ forecast m "07-20-2017" = forecast m "07-23-2017"
  ∧ forecast m "07-16-2017"
    = Some (predict m (days_from_civil 2017 7 16) (days_from_civil 2017 7 16))
  ∧ days_from_civil 2017 7 23 = days_from_civil 2017 7 16 + 7.
Proof. repeat split. Qed.

End forecast_facts.

Lemma forecast_same_week_witness :
  LoadModel.forecast (H := Statsmodels.example_library)
    (Statsmodels.SARIMAX [] (2, 1, 2), 5%nat) "01/02/2017"
  = LoadModel.forecast (H := Statsmodels.example_library)
      (Statsmodels.SARIMAX [] (2, 1, 2), 5%nat) "2017-01-08".
Proof.
  apply (proj1 (forecast_same_week (H := Statsmodels.example_library)
                  Dates.to_datetime
                  (Statsmodels.SARIMAX [] (2, 1, 2), 5%nat))
           "01/02/2017" "2017-01-08"
           (Calendar.midnight (Calendar.days_from_civil 2017 1 2))
           (Calendar.midnight (Calendar.days_from_civil 2017 1 8)));
    reflexivity.
Defined.

(** C3 as stated fails: the two dates resolve to different Sundays, 2017-07-16
    and 2017-07-23, and a model whose predictions differ between the two
    weeks gives different forecasts. *)
Lemma forecast_jul_16_and_jul_20_differ :
  Dates.week_end_date <$> Dates.to_datetime "07-16-2017"
  = Some (Calendar.days_from_civil 2017 7 16)
  ∧ Dates.week_end_date <$> Dates.to_datetime "07-20-2017"
    = Some (Calendar.days_from_civil 2017 7 23)
  ∧ Calendar.days_from_civil 2017 7 16 ≠ Calendar.days_from_civil 2017 7 23
  ∧ LoadModel.forecast (H := Statsmodels.example_library)
      (Statsmodels.SARIMAX [] (2, 1, 2), 5%nat) "07-20-2017"
    ≠ LoadModel.forecast (H := Statsmodels.example_library)
        (Statsmodels.SARIMAX [] (2, 1, 2), 5%nat) "07-16-2017".
Proof. repeat split; discriminate. Qed.

(** ** The saved model *)

Section run_inversion.
Import Frame Statsmodels Fit LoadModel.
Context `{Library}.

Lemma load_save (r : results) (fname : string) (fs : gmap string blob) :
  load fname (save r fname fs) = Some r.
Proof.
  unfold load, save. rewrite lookup_insert_eq. cbn. apply loads_dumps.
Qed.

(** A run that returns went through every statement. *)
Lemma run_Some (rides : list BuildModel.Trip) (fs : gmap string blob)
    (k : Kernel) (fs' : gmap string blob) :
  run rides fs = Some (k, fs')
  ↔ ∃ weekly result model predicted trained_model testing_model predicted',
      BuildModel.weekly rides = Some weekly
      ∧ seasonal_decompose weekly = Some result
      ∧ is_Some (hvplot_frame result)
      ∧ is_Some (adfuller weekly)
      ∧ is_Some (plot_acf weekly.*2 60)
      ∧ is_Some (plot_acf (Some <$> (Diagnostics.diff weekly).*2) 60)
      ∧ is_Some (plot_pacf (Some <$> (Diagnostics.diff weekly).*2) 60)
      ∧ fit (SARIMAX weekly (2, 1, 2)) = Some model
      ∧ is_Some (summary model)
      ∧ predict_in_sample model = Some predicted
      ∧ is_Some (hvplot_series weekly)
      ∧ is_Some (hvplot_frame predicted)
      ∧ fit (SARIMAX (loc_years 2015 2016 weekly) (2, 1, 2))
        = Some trained_model
      ∧ filter_params (SARIMAX weekly (2, 1, 2)) (get_params trained_model)
        = Some testing_model
      ∧ summary_frame testing_model = Some predicted'
      ∧ is_Some (hvplot_frame predicted')
      ∧ k = {| k_weekly := weekly;
               k_diff := Diagnostics.diff weekly;
               k_model := model;
               k_train := loc_years 2015 2016 weekly;
               k_trained_model := trained_model;
               k_testing_model := testing_model |}
      ∧ fs' = save testing_model "bike_forecasts.pkl" fs.
Proof.
  unfold run, order. split.
  - intros Hrun.
    destruct (BuildModel.weekly rides) as [weekly|]; [|done].
    cbn [mbind option_bind] in Hrun.
    destruct (seasonal_decompose weekly) as [result|] eqn:?; [|done].
    cbn [mbind option_bind] in Hrun.
    destruct (hvplot_frame result) eqn:?; [|done].
    destruct (adfuller weekly) eqn:?; [|done].
    destruct (plot_acf weekly.*2 60) eqn:?; [|done].
    cbn [mbind option_bind] in Hrun.
    destruct (plot_acf (Some <$> _) 60) eqn:?; [|done].
    destruct (plot_pacf (Some <$> _) 60) eqn:?; [|done].
    cbn [mbind option_bind] in Hrun.
    destruct (fit (SARIMAX weekly _)) as [model|] eqn:?; [|done].
    cbn [mbind option_bind] in Hrun.
    destruct (summary model) eqn:?; [|done].
    destruct (predict_in_sample model) as [predicted|] eqn:?; [|done].
    cbn [mbind option_bind] in Hrun.
    destruct (hvplot_series weekly) eqn:?; [|done].
    destruct (hvplot_frame predicted) eqn:?; [|done].
    cbn [mbind option_bind] in Hrun.
    destruct (fit (SARIMAX (loc_years _ _ _) _)) as [trained_model|] eqn:?;
      [|done].
    cbn [mbind option_bind] in Hrun.
    destruct (filter_params _ _) as [testing_model|] eqn:?; [|done].
    cbn [mbind option_bind] in Hrun.
    destruct (summary_frame testing_model) as [predicted'|] eqn:?; [|done].
    cbn [mbind option_bind] in Hrun.
    destruct (hvplot_frame predicted') eqn:?; [|done].
    cbn [mbind option_bind] in Hrun. injection Hrun as <- <-.
    exists weekly, result, model, predicted, trained_model, testing_model,
      predicted'.
    split_and!; by eauto.
  - intros (weekly & result & model & predicted & trained_model
            & testing_model & predicted' & Hw & H1 & [? H2] & [? H3]
            & [? H4] & [? H5] & [? H6] & H7 & [? H8] & H9 & [? H10]
            & [? H11] & H12 & H13 & H14 & [? H15] & -> & ->).
    rewrite Hw. cbn [mbind option_bind]. rewrite H1.
    cbn [mbind option_bind]. rewrite H2, H3, H4. cbn [mbind option_bind].
    rewrite H5, H6. cbn [mbind option_bind]. rewrite H7.
    cbn [mbind option_bind]. rewrite H8, H9. cbn [mbind option_bind].
    rewrite H10, H11. cbn [mbind option_bind]. rewrite H12.
    cbn [mbind option_bind]. rewrite H13. cbn [mbind option_bind].
    rewrite H14. cbn [mbind option_bind]. by rewrite H15.
Qed.

End run_inversion.

Section saved_model_facts.
Import Frame Statsmodels Fit LoadModel.
Context `{Library}.

(** C10: when the build notebook has run, the file read by the load
    notebook holds [testing_model]: the model over the full weekly series,
    filtered with the parameters that were estimated on the rows of 2015
    and 2016 only. Loading the file gives that object back, its
    parameters are those of [trained_model], and [forecast] answers from
    it. The fit on the full series has no part in the file: a run with
    another estimation routine that gives the same estimate on the rows
    of 2015 and 2016, and whatever estimate on the full series, writes
    the same file. *)
Theorem saved_model_is_validation_model
    (rides : list BuildModel.Trip) (fs : gmap string blob)
    (k : Kernel) (fs' : gmap string blob) :
  run rides fs = Some (k, fs') →
  BuildModel.weekly rides = Some (k_weekly k)
  ∧ k_train k = loc_years 2015 2016 (k_weekly k)
  ∧ fit (SARIMAX (k_train k) (2, 1, 2)) = Some (k_trained_model k)
  ∧ filter_params (SARIMAX (k_weekly k) (2, 1, 2))
      (get_params (k_trained_model k))
    = Some (k_testing_model k)
  ∧ fit (SARIMAX (k_weekly k) (2, 1, 2)) = Some (k_model k)
  ∧ fs' = <["bike_forecasts.pkl" := dumps (k_testing_model k)]> fs
  ∧ loaded_model fs' = Some (k_testing_model k)
  ∧ get_params (k_testing_model k) = get_params (k_trained_model k)
  ∧ (∀ parse date dt,
        parse date = Some dt →
        (m ← loaded_model fs'; forecast_with parse m date)
        = Some (predict (k_testing_model k)
                  (Dates.week_end_date dt) (Dates.week_end_date dt)))
  ∧ (∀ fit' k2 fs2,
        fit' (SARIMAX (k_train k) (2, 1, 2))
        = fit (SARIMAX (k_train k) (2, 1, 2)) →
        run (H := with_fit H fit') rides fs = Some (k2, fs2) →
        fs2 = fs'
        ∧ k_testing_model k2 = k_testing_model k
        ∧ k_trained_model k2 = k_trained_model k).
Proof.
  intros (weekly & result & model & predicted & trained_model
          & testing_model & predicted' & Hw & _ & _ & _ & _ & _ & _ & Hfit
          & _ & _ & _ & _ & Htrain & Hfilter & _ & _ & -> & ->)%run_Some.
  cbn [k_weekly k_train k_model k_trained_model k_testing_model].
  split_and!; try done.
  - apply load_save.
  - by eapply get_params_filter.
  - intros parse date dt Hdt. unfold loaded_model. rewrite load_save.
    cbn [mbind option_bind].
    unfold forecast_with. by rewrite Hdt.
  - intros fit' k2 fs2 Hsame
      (weekly2 & result2 & model2 & predicted2 & trained2 & testing2
       & predicted2' & Hw2 & _ & _ & _ & _ & _ & _ & _ & _ & _ & _ & _
       & Htrain2 & Hfilter2 & _ & _ & -> & ->)%run_Some.
    cbn [k_weekly k_train k_model k_trained_model k_testing_model].
    assert (weekly2 = weekly) as -> by congruence.
    cbn [fit with_fit] in Htrain2. rewrite Hsame, Htrain in Htrain2.
    injection Htrain2 as <-.
    cbn [filter_params get_params with_fit] in Hfilter2.
    rewrite Hfilter in Hfilter2. injection Hfilter2 as <-.
    done.
Qed.

End saved_model_facts.

Lemma saved_model_is_validation_model_witness :
  ∃ k fs',
    Fit.run (H := Statsmodels.example_library) Spec.rides_2015_2017 ∅
    = Some (k, fs')
    ∧ LoadModel.loaded_model fs' = Some (Fit.k_testing_model k)
    ∧ Statsmodels.get_params (Fit.k_testing_model k) = 104%nat
    ∧ Statsmodels.get_params (Fit.k_model k) = 110%nat.
Proof.
  eexists _, _.
  assert (Fit.run (H := Statsmodels.example_library) Spec.rides_2015_2017 ∅
          = Some (_, _)) as Hrun by (vm_compute; reflexivity).
  split; [exact Hrun|].
  destruct (saved_model_is_validation_model
              (H := Statsmodels.example_library) _ _ _ _ Hrun)
    as (_ & _ & _ & _ & _ & _ & Hload & _).
  split; [exact Hload|]. split; reflexivity.
Defined.

(** * Further properties of the notebooks *)

(** ** Cleaning as an operation on files *)

Section cleaning_algebra.
Import Frame BuildModel Spec.

Lemma cleaned_app rides1 rides2 :
  cleaned (rides1 ++ rides2) = cleaned rides1 ++ cleaned rides2.
Proof. by rewrite !cleaned_filter, filter_app. Qed.

Lemma cleaned_perm rides rides' :
  rides ≡ₚ rides' → cleaned rides ≡ₚ cleaned rides'.
Proof. intros Hp. by rewrite !cleaned_filter, Hp. Qed.

Lemma cleaned_all_failed rides :
  Forall failed_ride rides → cleaned rides = [].
Proof.
  rewrite cleaned_filter. induction 1 as [|r rides Hr _ IH]; [done|].
  by rewrite filter_cons_False by tauto.
Qed.

Lemma cleaned_cleaned rides : cleaned (cleaned rides) = cleaned rides.
Proof.
  rewrite (cleaned_filter (cleaned rides)), cleaned_filter, list_filter_filter.
  apply list_filter_iff. tauto.
Qed.

(** X1: cleaning is idempotent: cleaning data that has been cleaned removes
    nothing more, and no retained row is a failed ride. *)
Theorem cleaned_idempotent (rides : list Trip) :
  cleaned (cleaned rides) = cleaned rides
  ∧ Forall (λ r, ¬ failed_ride r) (cleaned rides).
Proof.
  split; [apply cleaned_cleaned|].
  apply Forall_forall. intros r Hr. by apply elem_of_cleaned in Hr as [_ ?].
Qed.

(** X2: cleaning works row by row, so cleaning the concatenation of the
    quarterly files is the concatenation of the cleaned files, whatever
    their number, and loading the files in another order gives the same
    retained rows up to order. *)
Theorem cleaned_concat (files : list (list Trip)) (rides1 rides2 : list Trip) :
  cleaned (concat files) = concat (cleaned <$> files)
  ∧ cleaned (rides1 ++ rides2) = cleaned rides1 ++ cleaned rides2
  ∧ cleaned (rides1 ++ rides2) ≡ₚ cleaned (rides2 ++ rides1).
Proof.
  split_and!.
  - induction files as [|f files IH]; [done|].
    cbn [concat fmap list_fmap]. by rewrite cleaned_app, IH.
  - apply cleaned_app.
  - rewrite !cleaned_app. apply Permutation_app_comm.
Qed.

(** X3: the mask has one entry per row; the retained rows are a
    subsequence of the input, in input order; and the rows removed are
    exactly as many as the input has failed rides. *)
Theorem cleaned_sublist_and_size (rides : list Trip) :
  length (failed rides) = length rides
  ∧ cleaned rides `sublist_of` rides
  ∧ (length rides
     = length (cleaned rides) + length (filter failed_ride rides))%nat.
Proof.
  split_and!.
  - by rewrite failed_rows, length_fmap.
  - rewrite cleaned_filter. apply sublist_filter.
  - rewrite cleaned_filter.
    rewrite <- (Permutation_length (filter_app_complement failed_ride rides)).
    rewrite length_app. lia.
Qed.

End cleaning_algebra.

(** ** The daily series as a function of the rows *)

Section daily_algebra.
Import Frame BuildModel Spec.

Lemma daily_rows_perm rides rides' :
  rides ≡ₚ rides' → daily_rows rides = daily_rows rides'.
Proof.
  intros Hp. rewrite !daily_unsorted. apply resample_D_count_perm.
  by rewrite (cleaned_perm _ _ Hp).
Qed.

Lemma daily_perm rides rides' : rides ≡ₚ rides' → daily rides = daily rides'.
Proof.
  intros Hp. rewrite !daily_eq, (daily_rows_perm _ _ Hp).
  by rewrite (spans_perm (Starttime <$> cleaned rides)
                (Starttime <$> cleaned rides'))
    by by rewrite (cleaned_perm _ _ Hp).
Qed.

Lemma daily_of_cleaned_eq rides rides' :
  cleaned rides = cleaned rides' → daily rides = daily rides'.
Proof. intros E. unfold daily. by rewrite E. Qed.

(** X4: the order of the input rows does not matter: two inputs with the
    same rows in any order have the same daily and the same weekly
    series. *)
Theorem daily_weekly_row_order (rides rides' : list Trip) :
  rides ≡ₚ rides' →
  daily rides = daily rides' ∧ weekly rides = weekly rides'.
Proof.
  intros Hp. pose proof (daily_perm _ _ Hp) as E.
  split; [exact E|]. unfold weekly. by rewrite E.
Qed.

Lemma daily_weekly_row_order_witness :
  daily [scenario_1; scenario_2;
         trip 2 (Calendar.midnight (Calendar.days_from_civil 2016 1 20))
           600 1026 1032]
  = daily [trip 2 (Calendar.midnight (Calendar.days_from_civil 2016 1 20))
             600 1026 1032;
           scenario_1; scenario_2]
  ∧ weekly [scenario_1; scenario_2;
            trip 2 (Calendar.midnight (Calendar.days_from_civil 2016 1 20))
              600 1026 1032]
    = weekly [trip 2 (Calendar.midnight (Calendar.days_from_civil 2016 1 20))
                600 1026 1032;
              scenario_1; scenario_2].
Proof.
  apply (daily_weekly_row_order
           [scenario_1; scenario_2;
            trip 2 (Calendar.midnight (Calendar.days_from_civil 2016 1 20))
              600 1026 1032]
           [trip 2 (Calendar.midnight (Calendar.days_from_civil 2016 1 20))
              600 1026 1032;
            scenario_1; scenario_2]).
  apply Permutation_sym, (Permutation_cons_append [scenario_1; scenario_2]).
Defined.

(** X5: failed rides leave no trace: adding any number of failed rides to
    the input, on whatever days, changes neither the daily nor the weekly
    series, not even their first and last day; and the series of the
    cleaned rows is the series of the input. *)
Theorem failed_rides_leave_no_trace (rides extra : list Trip) :
  Forall failed_ride extra →
  daily (rides ++ extra) = daily rides
  ∧ weekly (rides ++ extra) = weekly rides
  ∧ daily (cleaned rides) = daily rides.
Proof.
  intros Hextra.
  assert (daily (rides ++ extra) = daily rides) as E.
  { apply daily_of_cleaned_eq.
    by rewrite cleaned_app, (cleaned_all_failed extra), app_nil_r. }
  split; [exact E|]. split.
  - unfold weekly. by rewrite E.
  - apply daily_of_cleaned_eq, cleaned_cleaned.
Qed.

End daily_algebra.

Lemma failed_rides_leave_no_trace_witness :
  BuildModel.daily
    ([Spec.scenario_2;
      Spec.trip 2 (Calendar.midnight (Calendar.days_from_civil 2016 1 20))
        600 1026 1032]
       ++ [Spec.scenario_1;
           Spec.trip 9 (Calendar.midnight (Spec.new_year_2016 + 30)) 10 1026 1026])
  = BuildModel.daily
      [Spec.scenario_2;
       Spec.trip 2 (Calendar.midnight (Calendar.days_from_civil 2016 1 20))
         600 1026 1032]
  ∧ BuildModel.weekly
      ([Spec.scenario_2;
        Spec.trip 2 (Calendar.midnight (Calendar.days_from_civil 2016 1 20))
          600 1026 1032]
         ++ [Spec.scenario_1;
             Spec.trip 9 (Calendar.midnight (Spec.new_year_2016 + 30)) 10 1026 1026])
    = BuildModel.weekly
        [Spec.scenario_2;
         Spec.trip 2 (Calendar.midnight (Calendar.days_from_civil 2016 1 20))
           600 1026 1032]
  ∧ BuildModel.daily
      (BuildModel.cleaned
         [Spec.scenario_2;
          Spec.trip 2 (Calendar.midnight (Calendar.days_from_civil 2016 1 20))
            600 1026 1032])
    = BuildModel.daily
        [Spec.scenario_2;
         Spec.trip 2 (Calendar.midnight (Calendar.days_from_civil 2016 1 20))
           600 1026 1032].
Proof.
  apply (failed_rides_leave_no_trace
           [Spec.scenario_2;
            Spec.trip 2 (Calendar.midnight (Calendar.days_from_civil 2016 1 20))
              600 1026 1032]
           [Spec.scenario_1;
            Spec.trip 9 (Calendar.midnight (Spec.new_year_2016 + 30)) 10 1026 1026]).
  apply (bool_decide_unpack _). vm_compute. exact I.
Defined.

(** ** The shape of the daily series *)

Section daily_shape.
Import Frame BuildModel Spec.

Lemma filter_all {A} (P : A → Prop) `{∀ x, Decision (P x)} (l : list A) :
  (∀ x, x ∈ l → P x) → filter P l = l.
Proof.
  induction l as [|x l IH]; [done|]. intros Hl.
  rewrite filter_cons_True by (apply Hl; left).
  f_equal. apply IH. intros y Hy. apply Hl. by right.
Qed.

Lemma daily_nil_iff rides : daily_rows rides = [] ↔ cleaned rides = [].
Proof.
  destruct (daily_cases rides) as [[E ->]|(lo & hi & Hlo & Hhi & ->)]; [done|].
  destruct (span_of_trips _ _ _ Hlo Hhi lo) as [_ Hspan].
  apply index_min_spec in Hlo as [Hin Hmin].
  apply index_max_spec in Hhi as [Hin' Hmax].
  pose proof (Hmax lo Hin).
  split.
  - intros E%(f_equal length). rewrite length_fmap in E.
    unfold date_range_D in E. rewrite length_seqZ in E. cbn in E. lia.
  - intros E. rewrite E in Hin. by apply not_elem_of_nil in Hin.
Qed.

Lemma daily_retained rides ds : daily rides = Some ds → cleaned rides ≠ [].
Proof. intros [Hsp _]%daily_Some E. by rewrite E in Hsp. Qed.


(** X7: every daily count is at least 0 and at most the number of retained
    rows, and the counts of all days together are the number of retained
    rows that carry a trip id. *)
Theorem daily_counts_bounds_and_total (rides : list Trip) (ds : list (Z * Z)) :
  daily rides = Some ds →
  (∀ d n, get d ds = Some n → 0 ≤ n ≤ number (cleaned rides))
  ∧ total ds.*2 = number (identified (cleaned rides)).
Proof.
  intros ->%daily_rows_of. split.
  - intros d n.
    destruct (daily_cases rides) as [[_ ->]|(lo & hi & _ & _ & ->)]; [done|].
    rewrite get_tabulate. case_decide; [|done]. intros [= <-].
    unfold number, trips_on, identified. split; [lia|].
    apply inj_le. etrans; [apply length_filter|]. apply length_filter.
  - destruct (daily_cases rides) as [[-> ->]|(lo & hi & Hlo & Hhi & ->)]; [done|].
    rewrite snd_tabulate. unfold number, trips_on.
    rewrite (sum_counts start_day) by apply NoDup_seqZ.
    f_equal. f_equal. apply filter_all. intros r Hr.
    apply elem_of_date_range_D, (span_of_trips _ _ _ Hlo Hhi).
    apply list_elem_of_filter in Hr as [_ Hr].
    exists r, r. split_and!; [done..|lia|lia].
Qed.

Lemma daily_counts_bounds_and_total_witness :
  (∀ d n, get d [(new_year_2016, 2)] = Some n →
          0 ≤ n ≤ number (cleaned [scenario_1; scenario_2; scenario_3]))
  ∧ total [(new_year_2016, 2)].*2
    = number (identified (cleaned [scenario_1; scenario_2; scenario_3])).
Proof.
  apply (daily_counts_bounds_and_total [scenario_1; scenario_2; scenario_3]
           [(new_year_2016, 2)]).
  reflexivity.
Defined.

End daily_shape.

(** ** The weekly series as a function of the rows *)

Section weekly_shape.
Import Calendar Frame BuildModel Spec.

Lemma daily_index_bounds rides lo hi :
  index_min (start_day <$> cleaned rides) = Some lo →
  index_max (start_day <$> cleaned rides) = Some hi →
  lo ≤ hi
  ∧ index_min (daily_rows rides).*1 = Some lo
  ∧ index_max (daily_rows rides).*1 = Some hi.
Proof.
  intros Hlo Hhi.
  destruct (daily_cases rides) as [[E _]|(lo' & hi' & Hlo' & Hhi' & ->)].
  { by rewrite E in Hlo. }
  assert (lo' = lo) as -> by congruence. assert (hi' = hi) as -> by congruence.
  destruct (index_min_spec _ _ Hlo) as [Hin _].
  destruct (index_max_spec _ _ Hhi) as [_ Hmax].
  pose proof (Hmax lo Hin) as Hle.
  rewrite fst_tabulate. split; [done|]. split.
  - apply index_min_unique.
    + apply elem_of_date_range_D. lia.
    + intros x ?%elem_of_date_range_D. lia.
  - apply index_max_unique.
    + apply elem_of_date_range_D. lia.
    + intros x ?%elem_of_date_range_D. lia.
Qed.

(** The weekly series written out on the daily one. *)
Lemma weekly_tabulate rides lo hi :
  index_min (start_day <$> cleaned rides) = Some lo →
  index_max (start_day <$> cleaned rides) = Some hi →
  weekly_rows rides
  = Some ((λ w, (w, mean (week_counts w (daily_rows rides))))
            <$> date_range_W_SUN lo (week_end hi)).
Proof.
  intros Hlo Hhi. destruct (daily_index_bounds _ _ _ Hlo Hhi) as (Hle & Hlo' & Hhi').
  unfold weekly_rows. rewrite weekly_of_rows_resample. f_equal.
  destruct (resample_W_mean_cases (daily_rows rides))
    as [[E _]|(lo' & hi' & Hl & Hh & ->)].
  { by rewrite E in Hlo'. }
  assert (lo' = lo) as -> by congruence. assert (hi' = hi) as -> by congruence.
  apply list_fmap_ext. intros i w Hw%list_elem_of_lookup_2.
  apply elem_of_date_range_W_SUN in Hw as [Hw _]. by rewrite week_counts_bin.
Qed.

Lemma weekly_empty rides : cleaned rides = [] → weekly_rows rides = Some [].
Proof.
  intros E. unfold weekly_rows. rewrite weekly_of_rows_resample.
  by rewrite (proj2 (daily_nil_iff rides) E).
Qed.

Lemma length_filter_run a b lo n :
  0 ≤ n →
  length (filter (λ d, a ≤ d ≤ b) (seqZ lo n))
  = Z.to_nat (Z.min (lo + n - 1) b - Z.max lo a + 1).
Proof.
  intros Hn.
  rewrite <- (length_seqZ (Z.max lo a)).
  apply Permutation_length, NoDup_Permutation.
  - apply NoDup_filter, NoDup_seqZ.
  - apply NoDup_seqZ.
  - intros x. rewrite list_elem_of_filter, !elem_of_seqZ. lia.
Qed.

Lemma week_counts_cases rides lo hi w :
  index_min (start_day <$> cleaned rides) = Some lo →
  index_max (start_day <$> cleaned rides) = Some hi →
  total (week_counts w (daily_rows rides))
  = number (trips_between (w - 6) w (identified (cleaned rides)))
  ∧ length (week_counts w (daily_rows rides))
    = Z.to_nat (Z.min hi w - Z.max lo (w - 6) + 1).
Proof.
  intros Hlo Hhi. split.
  - apply (daily_sum_between rides (w - 6) w).
  - destruct (daily_index_bounds _ _ _ Hlo Hhi) as (Hle & _ & _).
    destruct (daily_cases rides) as [[E _]|(lo' & hi' & Hlo' & Hhi' & ->)].
    { by rewrite E in Hlo. }
    assert (lo' = lo) as -> by congruence. assert (hi' = hi) as -> by congruence.
    unfold week_counts.
    pose proof (filter_tabulate
                  (λ d, number (trips_on d (identified (cleaned rides))))
                  (λ d, w - 6 ≤ d ≤ w) (date_range_D lo hi)) as E.
    cbn beta in E. rewrite E, !length_fmap. unfold date_range_D.
    rewrite length_filter_run by lia. f_equal. lia.
Qed.

End weekly_shape.

Section weekly_extras.
Import Calendar Frame BuildModel Spec.

Lemma earliest_latest rides r1 r2 :
  r1 ∈ cleaned rides → r2 ∈ cleaned rides →
  (∀ r, r ∈ cleaned rides → start_day r1 ≤ start_day r ≤ start_day r2) →
  index_min (start_day <$> cleaned rides) = Some (start_day r1)
  ∧ index_max (start_day <$> cleaned rides) = Some (start_day r2).
Proof.
  intros H1 H2 Hb. split.
  - apply index_min_unique; [by apply list_elem_of_fmap_2|].
    intros x (r & -> & Hr)%list_elem_of_fmap. by apply Hb.
  - apply index_max_unique; [by apply list_elem_of_fmap_2|].
    intros x (r & -> & Hr)%list_elem_of_fmap. by apply Hb.
Qed.

Lemma pos_of_nat_Z n : n ≠ 0%nat → Z.pos (Pos.of_nat n) = Z.of_nat n.
Proof. intros Hn. by rewrite <- positive_nat_Z, Nat2Pos.id. Qed.

Lemma week_in_span_has_days lo hi w :
  lo ≤ hi → week_end lo ≤ w ≤ week_end hi →
  1 ≤ Z.min hi w - Z.max lo (w - 6) + 1 ≤ 7.
Proof.
  intros Hle Hw. pose proof (week_end_bounds lo). pose proof (week_end_bounds hi).
  lia.
Qed.

Lemma weekly_values_present (rides : list Trip) :
  ∃ ws,
    weekly_rows rides = Some ws
    ∧ (ws = [] ↔ cleaned rides = [])
    ∧ Forall (λ p, is_Some p.2) ws.
Proof.
  destruct (cleaned rides) as [|r0 kept] eqn:Ek.
  { exists []. split; [by apply weekly_empty|]. by split. }
  destruct (index_min_is_Some (start_day <$> cleaned rides)) as [lo Hlo].
  { by rewrite Ek. }
  destruct (index_max_is_Some (start_day <$> cleaned rides)) as [hi Hhi].
  { by rewrite Ek. }
  destruct (daily_index_bounds _ _ _ Hlo Hhi) as (Hle & _ & _).
  eexists. split; [by apply weekly_tabulate|]. split.
  - split; [|done]. intros E%(f_equal length). exfalso.
    rewrite length_fmap in E. unfold date_range_W_SUN in E.
    rewrite length_fmap, length_seqZ in E. cbn in E.
    pose proof (week_end_mono lo hi Hle).
    pose proof (Z.div_pos (week_end hi - week_end lo) 7 ltac:(lia) ltac:(lia)).
    lia.
  - apply Forall_fmap, Forall_forall. intros w Hw. cbn.
    apply elem_of_date_range_W_SUN in Hw as [_ Hw].
    destruct (week_counts_cases rides lo hi w Hlo Hhi) as [_ Hlen].
    pose proof (week_in_span_has_days lo hi w Hle Hw).
    destruct (week_counts w (daily_rows rides)); [cbn in Hlen; lia | by eexists].
Qed.

Lemma weekly_present rides ws :
  weekly rides = Some ws →
  cleaned rides ≠ [] ∧ ws ≠ [] ∧ Forall (λ p, is_Some p.2) ws.
Proof.
  intros Hws. pose proof (daily_retained _ _ (weekly_daily _ _ Hws)) as Hne.
  apply weekly_rows_of in Hws.
  destruct (weekly_values_present rides) as (ws' & Hws' & Hnil & Hall).
  assert (ws' = ws) as -> by congruence.
  split; [done|]. split; [|done]. by rewrite Hnil.
Qed.

Lemma get_None {V} (s : list (Z * V)) k : k ∉ s.*1 → get k s = None.
Proof.
  induction s as [|[k' v'] s IH]; [done|]. cbn.
  intros Hk. destruct (Z.eqb_spec k k') as [->|_].
  - destruct Hk. left.
  - apply IH. intros ?. apply Hk. by right.
Qed.

Lemma asfreq_tabulate {V} (s : list (Z * option V)) lo hi :
  NoDup s.*1 → index_min s.*1 = Some lo → index_max s.*1 = Some hi →
  asfreq_W_SUN s
  = Some ((λ w, (w, mjoin (get w s))) <$> date_range_W_SUN lo hi).
Proof.
  intros Hnd Hlo Hhi. unfold asfreq_W_SUN, reindex.
  by rewrite Hlo, Hhi, decide_True.
Qed.

(** C6 as stated fails: no retained trip starts in the week from Monday
    2016-01-04 to Sunday 2016-01-10, and the weekly series holds the value
    0 for that week, not a missing value. *)
Lemma week_without_trips_is_zero_not_missing :
  cleaned sparse_rides = sparse_rides
  ∧ trips_between (days_from_civil 2016 1 4) (days_from_civil 2016 1 10)
      (cleaned sparse_rides) = []
  ∧ weekly sparse_rides
    = Some [(days_from_civil 2016 1 3, Some (1 # 3));
            (days_from_civil 2016 1 10, Some (0 # 7));
            (days_from_civil 2016 1 17, Some (0 # 7));
            (days_from_civil 2016 1 24, Some (1 # 3))]
  ∧ (weekly sparse_rides ≫= get (days_from_civil 2016 1 10))
    = Some (Some (0 # 7)).
Proof. repeat split. Qed.

(** C6, amended. The cell that computes [weekly], on whatever daily series
    it accepts, gives a series with a strict weekly index: Sundays, each
    seven days after the one before, without duplicates, with an entry
    for exactly the Sundays from the week of the earliest daily row to the
    week of the latest; the entry of a week is the sum of the daily counts
    that fall in the week divided by their number, and the missing value
    when no daily row falls in the week. The daily series of the notebook
    has a row for every day between its first and last, so each week of
    its weekly series has between one and seven daily rows and a value:
    the number of retained trips with a trip id that start in the week,
    divided by the number of those rows; a week in which no retained trip
    starts has the value 0. The reindexing step, on a series without
    duplicate labels, gives the strict weekly series over the Sundays from
    the first label to the last, with the values at Sunday labels kept
    and the missing value at every Sunday that is no label. *)
Theorem weekly_series_is_strict_weekly_mean :
  (∀ (daily : list (Z * Z)) ws,
      weekly_of_daily daily = Some ws →
      strict_weekly ws.*1 = true
      ∧ NoDup ws.*1
      ∧ (∀ w, is_Some (get w ws)
              ↔ is_sunday w = true
                ∧ ∃ p1 p2, p1 ∈ daily ∧ p2 ∈ daily
                           ∧ week_end p1.1 ≤ w ≤ week_end p2.1)
      ∧ (∀ w v, get w ws = Some v →
                (week_counts w daily = [] ∧ v = None)
                ∨ ∃ days : positive,
                    Z.pos days = Z.of_nat (length (week_counts w daily))
                    ∧ v = Some (sum_between (w - 6) w daily # days)))
  ∧ (∀ rides ws,
        weekly rides = Some ws →
        ∃ ds,
          daily rides = Some ds
          ∧ weekly_of_daily ds = Some ws
          ∧ (∀ w v, get w ws = Some v →
                    ∃ days : positive,
                      Z.pos days = Z.of_nat (length (week_counts w ds))
                      ∧ 1 ≤ Z.pos days ≤ 7
                      ∧ v = Some (number (trips_between (w - 6) w
                                            (identified (cleaned rides)))
                                  # days)
                      ∧ (trips_between (w - 6) w (cleaned rides) = [] →
                         v = Some (0 # days))))
  ∧ (∀ (s : list (Z * option Q)) lo hi,
        NoDup s.*1 →
        index_min s.*1 = Some lo → index_max s.*1 = Some hi →
        ∃ s',
          asfreq_W_SUN s = Some s'
          ∧ strict_weekly s'.*1 = true
          ∧ NoDup s'.*1
          ∧ (∀ w, is_Some (get w s')
                  ↔ is_sunday w = true ∧ week_end lo ≤ w ≤ hi)
          ∧ (∀ w v, is_sunday w = true → (w, v) ∈ s → get w s' = Some v)
          ∧ (∀ w, is_sunday w = true → week_end lo ≤ w ≤ hi →
                  w ∉ s.*1 → get w s' = Some None)).
Proof.
  split_and!.
  - intros daily ws Hws. rewrite weekly_of_daily_eq in Hws.
    destruct (spans daily.*1); [|done]. injection Hws as <-.
    pose proof (resample_W_mean_strict daily) as Hst.
    split; [done|]. split; [by apply weekly_steps_NoDup|].
    split; [apply resample_W_mean_dom|].
    intros w v Hv. rewrite (resample_W_mean_value daily w v Hv).
    change (sum_between (w - 6) w daily) with (total (week_counts w daily)).
    destruct (week_counts w daily) as [|c cs]; [by left|].
    right. exists (Pos.of_nat (length (c :: cs))).
    split; [by apply pos_of_nat_Z | done].
  - intros rides ws Hws. exists (daily_rows rides).
    pose proof (weekly_present _ _ Hws) as (Hne & _ & _).
    apply weekly_Some in Hws as (Hds & Hsp & ->).
    split; [done|].
    split; [by rewrite weekly_of_daily_eq, Hsp|].
    intros w v Hget.
    destruct (index_min_is_Some (start_day <$> cleaned rides)) as [lo Hlo].
    { by destruct (cleaned rides). }
    destruct (index_max_is_Some (start_day <$> cleaned rides)) as [hi Hhi].
    { by destruct (cleaned rides). }
    destruct (daily_index_bounds _ _ _ Hlo Hhi) as (Hle & Hlo' & Hhi').
    assert (is_Some (get w (resample_W_mean (daily_rows rides)))) as Hdom
      by by eexists.
    apply resample_W_mean_dom in Hdom as [Hsun Hspan].
    apply (span_of_weeks _ _ _ _ Hlo' Hhi') in Hspan.
    rewrite (resample_W_mean_value _ _ _ Hget).
    destruct (week_counts_cases rides _ _ w Hlo Hhi) as [Htot Hlen].
    pose proof (week_in_span_has_days _ _ w Hle Hspan) as Hdays.
    destruct (week_counts w (daily_rows rides)) as [|c cs] eqn:Ec;
      [cbn in Hlen; lia|].
    exists (Pos.of_nat (length (c :: cs))). cbn [mean].
    rewrite Htot, pos_of_nat_Z by done.
    split; [done|]. split; [rewrite Hlen; lia|]. split; [done|].
    intros Hnone.
    assert (trips_between (w - 6) w (identified (cleaned rides)) = []) as ->;
      [|done].
    apply elem_of_nil_inv. intros r [Hr Hin]%list_elem_of_filter.
    apply list_elem_of_filter in Hin as [_ Hin].
    apply (not_elem_of_nil r). rewrite <- Hnone.
    by apply list_elem_of_filter.
  - intros s lo hi Hnd Hlo Hhi. eexists.
    split; [by apply asfreq_tabulate|].
    rewrite fst_tabulate.
    split; [apply date_range_W_SUN_strict|].
    split; [apply weekly_steps_NoDup, date_range_W_SUN_strict|].
    split; [|split].
    + intros w. rewrite get_tabulate, <- elem_of_date_range_W_SUN.
      case_decide; split; try done; by intros [? ?].
    + intros w v Hsun Hin. rewrite get_tabulate.
      destruct (index_min_spec _ _ Hlo) as [_ Hmin].
      destruct (index_max_spec _ _ Hhi) as [_ Hmax].
      assert (w ∈ s.*1) as Hw by (apply list_elem_of_fmap; by exists (w, v)).
      pose proof (Hmin w Hw). pose proof (Hmax w Hw).
      pose proof (week_end_mono lo w ltac:(lia)) as Hm.
      rewrite (week_end_of_sunday w Hsun) in Hm.
      rewrite decide_True by (apply elem_of_date_range_W_SUN; split; [done|lia]).
      by rewrite (get_NoDup s w v Hnd Hin).
    + intros w Hsun Hspan Hnot. rewrite get_tabulate.
      rewrite decide_True by by apply elem_of_date_range_W_SUN.
      by rewrite (get_None s w Hnot).
Qed.


(** X9: a weekly value is the number of retained trips with a trip id that
    start in the week (its Monday to its Sunday), divided by the number of
    days of that week between the first and the last day of the data: seven
    for a full week, fewer for the first and the last week. *)
Theorem weekly_mean_is_trips_per_day
    (rides : list Trip) (r1 r2 : Trip) (ws : list (Z * option Q))
    (w : Z) (v : option Q) :
  r1 ∈ cleaned rides → r2 ∈ cleaned rides →
  (∀ r, r ∈ cleaned rides → start_day r1 ≤ start_day r ≤ start_day r2) →
  weekly rides = Some ws →
  get w ws = Some v →
  ∃ days : positive,
    v = Some (number (trips_between (w - 6) w (identified (cleaned rides)))
              # days)
    ∧ Z.pos days = Z.min (start_day r2) w - Z.max (start_day r1) (w - 6) + 1
    ∧ Z.pos days ≤ 7.
Proof.
  intros H1 H2 Hb Hws%weekly_rows_of Hget.
  destruct (earliest_latest rides r1 r2 H1 H2 Hb) as [Hlo Hhi].
  destruct (daily_index_bounds _ _ _ Hlo Hhi) as (Hle & _ & _).
  rewrite (weekly_tabulate _ _ _ Hlo Hhi) in Hws. injection Hws as <-.
  rewrite get_tabulate in Hget. case_decide as Hw; [|done].
  injection Hget as <-.
  apply elem_of_date_range_W_SUN in Hw as [_ Hw].
  destruct (week_counts_cases rides _ _ w Hlo Hhi) as [Htot Hlen].
  pose proof (week_in_span_has_days _ _ w Hle Hw) as Hdays.
  destruct (week_counts w (daily_rows rides)) as [|c cs] eqn:Ec;
    [cbn in Hlen; lia|].
  exists (Pos.of_nat (length (c :: cs))). cbn [mean].
  rewrite Htot. split; [done|].
  rewrite pos_of_nat_Z by done. rewrite Hlen. lia.
Qed.

Lemma weekly_mean_is_trips_per_day_witness :
  ∃ days : positive,
    Some (1 # 3)
    = Some (number (trips_between (days_from_civil 2016 1 3 - 6)
                      (days_from_civil 2016 1 3)
                      (identified
                         (cleaned
                            [trip 1 (midnight (days_from_civil 2016 1 1)) 600 1026 1032;
                             trip 2 (midnight (days_from_civil 2016 1 20)) 600 1026 1032])))
            # days)
    ∧ Z.pos days
      = Z.min (start_day (trip 2 (midnight (days_from_civil 2016 1 20)) 600 1026 1032))
          (days_from_civil 2016 1 3)
        - Z.max (start_day (trip 1 (midnight (days_from_civil 2016 1 1)) 600 1026 1032))
            (days_from_civil 2016 1 3 - 6)
        + 1
    ∧ Z.pos days ≤ 7.
Proof.
  apply (weekly_mean_is_trips_per_day
           [trip 1 (midnight (days_from_civil 2016 1 1)) 600 1026 1032;
            trip 2 (midnight (days_from_civil 2016 1 20)) 600 1026 1032]
           (trip 1 (midnight (days_from_civil 2016 1 1)) 600 1026 1032)
           (trip 2 (midnight (days_from_civil 2016 1 20)) 600 1026 1032)
           [(days_from_civil 2016 1 3, Some (1 # 3));
            (days_from_civil 2016 1 10, Some (0 # 7));
            (days_from_civil 2016 1 17, Some (0 # 7));
            (days_from_civil 2016 1 24, Some (1 # 3))]
           (days_from_civil 2016 1 3) (Some (1 # 3))).
  - apply (bool_decide_unpack _). vm_compute. exact I.
  - apply (bool_decide_unpack _). vm_compute. exact I.
  - apply Forall_forall. apply (bool_decide_unpack _). vm_compute. exact I.
  - reflexivity.
  - reflexivity.
Defined.

End weekly_extras.

Section weekly_span.
Import Calendar Frame BuildModel Spec.

Lemma date_range_W_SUN_ends lo hi :
  lo ≤ hi →
  head (date_range_W_SUN lo (week_end hi)) = Some (week_end lo)
  ∧ last (date_range_W_SUN lo (week_end hi)) = Some (week_end hi)
  ∧ Z.of_nat (length (date_range_W_SUN lo (week_end hi)))
    = (week_end hi - week_end lo) / 7 + 1.
Proof.
  intros Hle. unfold date_range_W_SUN.
  pose proof (week_end_mono lo hi Hle) as Hm.
  pose proof (Z.div_pos (week_end hi - week_end lo) 7 ltac:(lia) ltac:(lia)) as Hn.
  pose proof (sundays_apart (week_end lo) (week_end hi)
                (week_end_sunday lo) (week_end_sunday hi)) as Hap.
  set (n := (week_end hi - week_end lo) / 7) in *.
  split_and!.
  - rewrite seqZ_cons by lia. cbn. f_equal. lia.
  - rewrite last_lookup, length_fmap, length_seqZ, list_lookup_fmap.
    rewrite lookup_seqZ_lt by lia. cbn. f_equal. lia.
  - rewrite length_fmap, length_seqZ. lia.
Qed.

(** X10: the weekly series runs from the week of the earliest retained trip
    to the week of the latest: its first label is the Sunday ending the
    week of the earliest start day, its last label the Sunday ending the
    week of the latest, and it has one row for each week between them. *)
Theorem weekly_index_span
    (rides : list Trip) (r1 r2 : Trip) (ws : list (Z * option Q)) :
  r1 ∈ cleaned rides → r2 ∈ cleaned rides →
  (∀ r, r ∈ cleaned rides → start_day r1 ≤ start_day r ≤ start_day r2) →
  weekly rides = Some ws →
  head ws.*1 = Some (week_end (start_day r1))
  ∧ last ws.*1 = Some (week_end (start_day r2))
  ∧ Z.of_nat (length ws)
    = (week_end (start_day r2) - week_end (start_day r1)) / 7 + 1.
Proof.
  intros H1 H2 Hb Hws%weekly_rows_of.
  destruct (earliest_latest rides r1 r2 H1 H2 Hb) as [Hlo Hhi].
  destruct (daily_index_bounds _ _ _ Hlo Hhi) as (Hle & _ & _).
  rewrite (weekly_tabulate _ _ _ Hlo Hhi) in Hws. injection Hws as <-.
  rewrite fst_tabulate, length_fmap. by apply date_range_W_SUN_ends.
Qed.

Lemma weekly_index_span_witness :
  head [(days_from_civil 2016 1 3, Some (1 # 3));
        (days_from_civil 2016 1 10, Some (0 # 7));
        (days_from_civil 2016 1 17, Some (0 # 7));
        (days_from_civil 2016 1 24, Some (1 # 3))].*1
  = Some (week_end (days_from_civil 2016 1 1))
  ∧ last [(days_from_civil 2016 1 3, Some (1 # 3));
          (days_from_civil 2016 1 10, Some (0 # 7));
          (days_from_civil 2016 1 17, Some (0 # 7));
          (days_from_civil 2016 1 24, Some (1 # 3))].*1
    = Some (week_end (days_from_civil 2016 1 20))
  ∧ 4 = (week_end (days_from_civil 2016 1 20)
         - week_end (days_from_civil 2016 1 1)) / 7 + 1.
Proof.
  apply (weekly_index_span
           [trip 1 (midnight (days_from_civil 2016 1 1)) 600 1026 1032;
            trip 2 (midnight (days_from_civil 2016 1 20)) 600 1026 1032]
           (trip 1 (midnight (days_from_civil 2016 1 1)) 600 1026 1032)
           (trip 2 (midnight (days_from_civil 2016 1 20)) 600 1026 1032)
           [(days_from_civil 2016 1 3, Some (1 # 3));
            (days_from_civil 2016 1 10, Some (0 # 7));
            (days_from_civil 2016 1 17, Some (0 # 7));
            (days_from_civil 2016 1 24, Some (1 # 3))]).
  - apply (bool_decide_unpack _). vm_compute. exact I.
  - apply (bool_decide_unpack _). vm_compute. exact I.
  - apply Forall_forall. apply (bool_decide_unpack _). vm_compute. exact I.
  - reflexivity.
Defined.

End weekly_span.

(** ** The differenced series *)

Section diff_facts.
Import Calendar Frame BuildModel Diagnostics.

Lemma dropna_cons_Some {V} k (v : V) s :
  dropna ((k, Some v) :: s) = (k, v) :: dropna s.
Proof. done. Qed.

Lemma dropna_cons_None {V} k (s : list (Z * option V)) :
  dropna ((k, None) :: s) = dropna s.
Proof. done. Qed.

(** The rows of the differenced series, also when values are missing: a
    row survives when it and the row before it both hold a value. *)
Lemma elem_of_diff_after prev s k x :
  (k, x) ∈ dropna (diff_after prev s)
  ↔ (∃ a b, prev = Some a ∧ head s = Some (k, Some b) ∧ x = Qminus b a)
    ∨ (∃ i k0 a b, s !! i = Some (k0, Some a)
                   ∧ s !! S i = Some (k, Some b) ∧ x = Qminus b a).
Proof.
  revert prev. induction s as [|[k1 v1] s IH]; intros prev.
  - cbn. split; [by intros ?%not_elem_of_nil|].
    intros [(a & b & _ & ? & _)|(i & k0 & a & b & ? & _)]; done.
  - assert (∀ v, (k, x) ∈ dropna (diff_after v s)
                 ↔ (∃ b, ∃ a, v = Some a ∧ s !! 0%nat = Some (k, Some b)
                              ∧ x = Qminus b a)
                   ∨ (∃ i k0 a b, ((k1, v1) :: s) !! S i = Some (k0, Some a)
                                  ∧ ((k1, v1) :: s) !! S (S i) = Some (k, Some b)
                                  ∧ x = Qminus b a)) as IH'.
    { intros v. rewrite IH, <- head_lookup. cbn. split.
      - intros [(a & b & ?)|?]; [left; by exists b, a | by right].
      - intros [(b & a & ?)|?]; [left; by exists a, b | by right]. }
    clear IH. cbn [diff_after].
    assert ((∃ i k0 a b, ((k1, v1) :: s) !! i = Some (k0, Some a)
                         ∧ ((k1, v1) :: s) !! S i = Some (k, Some b)
                         ∧ x = Qminus b a)
            ↔ (∃ b a, v1 = Some a ∧ s !! 0%nat = Some (k, Some b)
                      ∧ x = Qminus b a)
              ∨ (∃ i k0 a b, ((k1, v1) :: s) !! S i = Some (k0, Some a)
                             ∧ ((k1, v1) :: s) !! S (S i) = Some (k, Some b)
                             ∧ x = Qminus b a)) as Hsplit.
    { split.
      - intros (i & k0 & a & b & Hi & HS & Hx). destruct i as [|i].
        + left. cbn in Hi, HS. injection Hi as <- ->. by exists b, a.
        + right. by exists i, k0, a, b.
      - intros [(b & a & -> & H0 & Hx)|(i & k0 & a & b & ?)].
        + by exists 0%nat, k1, a, b.
        + by exists (S i), k0, a, b. }
    rewrite Hsplit. clear Hsplit.
    destruct prev as [a|], v1 as [b|].
    + rewrite dropna_cons_Some, elem_of_cons, IH'. cbn [head]. split.
      * intros [[= -> ->]|[?|?]].
        -- left. by exists a, b.
        -- right. by left.
        -- right. by right.
      * intros [(a' & b' & [= <-] & [= <- <-] & ->)|[?|?]].
        -- by left.
        -- right. by left.
        -- right. by right.
    + rewrite dropna_cons_None, IH'. cbn [head]. split.
      * intros ?. by right.
      * intros [(a' & b' & _ & [=] & _)|?]; done.
    + rewrite dropna_cons_None, IH'. cbn [head]. split.
      * intros ?. by right.
      * intros [(a' & b' & [=] & _)|?]; done.
    + rewrite dropna_cons_None, IH'. cbn [head]. split.
      * intros ?. by right.
      * intros [(a' & b' & [=] & _)|?]; done.
Qed.

(** X11: a row of [diff = weekly.diff().dropna()] is a label with the
    difference between its value and the value of the row before it, and
    there is one exactly for each pair of neighbouring rows that both hold
    a value; the first row never gives one. *)
Theorem diff_rows (s : list (Z * option Q)) (k : Z) (x : Q) :
  (k, x) ∈ diff s
  ↔ ∃ i k0 a b, s !! i = Some (k0, Some a)
                ∧ s !! S i = Some (k, Some b) ∧ x = Qminus b a.
Proof.
  unfold diff, series_diff. rewrite elem_of_diff_after. split.
  - intros [(a & b & [=] & _)|H]; exact H.
  - intros H. by right.
Qed.

End diff_facts.

Section diff_of_weekly.
Import Calendar Frame BuildModel Diagnostics.

Lemma diff_after_present_index a (s : list (Z * option Q)) :
  Forall (λ p, is_Some p.2) s →
  (dropna (diff_after (Some a) s)).*1 = s.*1.
Proof.
  intros Hs. revert a. induction Hs as [|[k v] s [b Hb] _ IH]; intros a; [done|].
  cbn in Hb. subst v. cbn [diff_after]. rewrite dropna_cons_Some.
  cbn [fmap list_fmap fst]. f_equal. apply IH.
Qed.

Lemma diff_present_index (s : list (Z * option Q)) :
  Forall (λ p, is_Some p.2) s → (diff s).*1 = tail s.*1.
Proof.
  intros Hs. unfold diff, series_diff. destruct Hs as [|[k v] s [b Hb] Hs]; [done|].
  cbn in Hb. subst v. cbn [diff_after]. rewrite dropna_cons_None.
  by apply diff_after_present_index.
Qed.

Lemma strict_weekly_tail idx :
  strict_weekly idx = true → strict_weekly (tail idx) = true.
Proof.
  unfold strict_weekly. intros [Hs Hst]%andb_true_iff.
  destruct idx as [|a [|b idx]]; try done.
  cbn [forallb weekly_steps tail] in *.
  apply andb_true_iff in Hs as [_ Hs]. apply andb_true_iff in Hst as [_ Hst].
  by rewrite Hs, Hst.
Qed.

(** X12: in the notebook the differenced series is the weekly series
    without its first week: it has one row less, its labels are the weekly
    labels from the second on, and they are again consecutive Sundays. *)
Theorem diff_of_weekly_drops_first_week
    (rides : list Trip) (ws : list (Z * option Q)) :
  weekly rides = Some ws →
  (diff ws).*1 = tail ws.*1
  ∧ length (diff ws) = pred (length ws)
  ∧ strict_weekly (diff ws).*1 = true.
Proof.
  intros Hws. destruct (weekly_present _ _ Hws) as (_ & _ & Hpresent).
  pose proof (diff_present_index ws Hpresent) as Hidx.
  split; [done|]. split.
  - rewrite <- (length_fmap fst (diff ws)), Hidx.
    rewrite <- (length_fmap fst ws). by destruct (ws.*1).
  - rewrite Hidx. apply strict_weekly_tail.
    apply weekly_Some in Hws as (_ & _ & ->). apply resample_W_mean_strict.
Qed.

Lemma diff_of_weekly_drops_first_week_witness :
  (diff [(days_from_civil 2016 1 3, Some (1 # 3));
         (days_from_civil 2016 1 10, Some (0 # 7));
         (days_from_civil 2016 1 17, Some (0 # 7));
         (days_from_civil 2016 1 24, Some (1 # 3))]).*1
  = [days_from_civil 2016 1 10; days_from_civil 2016 1 17;
     days_from_civil 2016 1 24]
  ∧ length (diff [(days_from_civil 2016 1 3, Some (1 # 3));
                  (days_from_civil 2016 1 10, Some (0 # 7));
                  (days_from_civil 2016 1 17, Some (0 # 7));
                  (days_from_civil 2016 1 24, Some (1 # 3))]) = 3%nat
  ∧ strict_weekly
      (diff [(days_from_civil 2016 1 3, Some (1 # 3));
             (days_from_civil 2016 1 10, Some (0 # 7));
             (days_from_civil 2016 1 17, Some (0 # 7));
             (days_from_civil 2016 1 24, Some (1 # 3))]).*1 = true.
Proof.
  apply (diff_of_weekly_drops_first_week Spec.sparse_rides
           [(days_from_civil 2016 1 3, Some (1 # 3));
            (days_from_civil 2016 1 10, Some (0 # 7));
            (days_from_civil 2016 1 17, Some (0 # 7));
            (days_from_civil 2016 1 24, Some (1 # 3))]).
  reflexivity.
Defined.

End diff_of_weekly.

(** ** The validation split *)

Section split_facts.
Import Calendar Frame BuildModel Spec Validation.

Lemma year_boundaries :
  days_from_civil 2017 1 1 = days_from_civil 2016 12 31 + 1
  ∧ is_sunday (days_from_civil 2017 1 1) = true
  ∧ is_sunday (days_from_civil 2016 12 25) = true
  ∧ is_sunday (days_from_civil 2015 1 4) = true
  ∧ days_from_civil 2016 12 31 = days_from_civil 2016 12 25 + 6
  ∧ days_from_civil 2015 1 4 = days_from_civil 2015 1 1 + 3.
Proof. repeat split. Qed.

Lemma sunday_in_window w :
  is_sunday w = true →
  days_from_civil 2015 1 1 ≤ w ≤ days_from_civil 2016 12 31 →
  days_from_civil 2015 1 4 ≤ w ≤ days_from_civil 2016 12 25.
Proof.
  intros Hw Hb. split.
  - pose proof (week_end_mono _ _ (proj1 Hb)) as Hm.
    rewrite (week_end_of_sunday w Hw) in Hm. exact Hm.
  - destruct (Z_le_gt_dec w (days_from_civil 2016 12 25)) as [|Hgt]; [done|].
    assert (week_end (days_from_civil 2016 12 26) = w) as Hu.
    { apply week_end_unique; [done|].
      change (days_from_civil 2016 12 26) with (days_from_civil 2016 12 25 + 1).
      change (days_from_civil 2016 12 31) with (days_from_civil 2016 12 25 + 6)
        in Hb.
      lia. }
    change (week_end (days_from_civil 2016 12 26))
      with (days_from_civil 2016 12 25 + 7) in Hu.
    change (days_from_civil 2016 12 31) with (days_from_civil 2016 12 25 + 6)
      in Hb.
    lia.
Qed.

Lemma split_sorted_at c {V} (s : list (Z * V)) :
  StronglySorted Z.le s.*1 →
  filter (λ p, p.1 ≤ c) s ++ filter (λ p, c < p.1) s = s.
Proof.
  induction s as [|p s IH]; [done|]. cbn [fmap list_fmap].
  intros [Hall Hs]%StronglySorted_cons. rewrite !filter_cons.
  destruct (decide (p.1 ≤ c)) as [Hle|Hgt].
  - rewrite decide_False by lia. cbn. f_equal. by apply IH.
  - rewrite decide_True by lia.
    rewrite (filter_all (λ q, c < q.1) s).
    + rewrite (filter_ext_elem (λ q : Z * V, q.1 ≤ c) (λ _, False) s).
      * assert (filter (λ _ : Z * V, False) s = []) as ->; [|done].
        clear. induction s as [|q s IHs]; [done|].
        by rewrite filter_cons_False by tauto.
      * intros q Hq. split; [|done]. intros Hqc.
        apply Forall_forall with (x := q.1) in Hall; [lia|].
        by apply list_elem_of_fmap_2.
    + intros q Hq. apply Forall_forall with (x := q.1) in Hall; [lia|].
      by apply list_elem_of_fmap_2.
Qed.

Lemma strict_weekly_sorted idx :
  strict_weekly idx = true → StronglySorted Z.le idx.
Proof.
  intros [_ Hst]%andb_true_iff. apply Sorted_StronglySorted; [apply _|].
  induction idx as [|a idx IH]; [constructor|].
  destruct idx as [|b idx].
  - repeat constructor.
  - cbn [weekly_steps] in Hst. apply andb_true_iff in Hst as [Hb%Z.eqb_eq Hst].
    constructor; [by apply IH|]. constructor. lia.
Qed.

Lemma train_held_out_app {V} (s : list (Z * V)) :
  StronglySorted Z.le s.*1 →
  Forall (λ p, days_from_civil 2015 1 1 ≤ p.1) s →
  train s ++ held_out s = s.
Proof.
  intros Hs Hall.
  rewrite <- (split_sorted_at (days_from_civil 2016 12 31) s Hs) at 3.
  unfold train, loc_years, held_out, loc_from_year. f_equal.
  - apply filter_ext_elem. intros p Hp.
    apply Forall_forall with (x := p) in Hall; [|done]. tauto.
  - apply list_filter_iff. intros p.
    destruct year_boundaries as (E & _). rewrite E. lia.
Qed.

Lemma weekly_labels_lower_bound rides ws c :
  weekly_rows rides = Some ws →
  (∀ r, r ∈ cleaned rides → c ≤ start_day r) →
  Forall (λ p, c ≤ p.1) ws.
Proof.
  intros Hws Hc. destruct (cleaned rides) as [|r0 kept] eqn:Ek.
  { rewrite (weekly_empty rides Ek) in Hws. by injection Hws as <-. }
  destruct (index_min_is_Some (start_day <$> cleaned rides)) as [lo Hlo].
  { by rewrite Ek. }
  destruct (index_max_is_Some (start_day <$> cleaned rides)) as [hi Hhi].
  { by rewrite Ek. }
  rewrite (weekly_tabulate _ _ _ Hlo Hhi) in Hws. injection Hws as <-.
  apply Forall_fmap, Forall_forall. intros w [_ Hw]%elem_of_date_range_W_SUN.
  cbn. pose proof (week_end_bounds lo).
  apply index_min_spec in Hlo as [(r & -> & Hr)%list_elem_of_fmap _].
  rewrite <- Ek in Hc. specialize (Hc r Hr). lia.
Qed.

End split_facts.

Section split_extras.
Import Calendar Frame BuildModel Spec Validation.

Lemma get_filter_label {V} (P : Z → Prop) `{∀ x, Decision (P x)}
    (s : list (Z * V)) (k : Z) :
  get k (filter (λ p, P p.1) s) = if decide (P k) then get k s else None.
Proof.
  induction s as [|[k' v] s IH]; [by destruct (decide (P k))|].
  rewrite filter_cons. cbn [fst]. destruct (decide (P k')) as [HP|HP]; cbn [get].
  - destruct (Z.eqb_spec k k') as [->|Hne]; [by rewrite decide_True|done].
  - rewrite IH. destruct (Z.eqb_spec k k') as [->|Hne]; [|done].
    by destruct (decide (P k')).
Qed.

Lemma weekly_labels_sundays rides ws :
  weekly rides = Some ws → strict_weekly ws.*1 = true.
Proof. intros (_ & _ & ->)%weekly_Some. apply resample_W_mean_strict. Qed.

Lemma daily_row_of_trip rides r :
  r ∈ cleaned rides → ∃ n, (start_day r, n) ∈ daily_rows rides.
Proof.
  intros Hr.
  destruct (daily_cases rides) as [[E _]|(lo & hi & Hlo & Hhi & ->)].
  { rewrite E in Hr. by apply not_elem_of_nil in Hr. }
  exists (number (trips_on (start_day r) (identified (cleaned rides)))).
  apply (list_elem_of_fmap_2
           (λ d, (d, number (trips_on d (identified (cleaned rides)))))
           _ (start_day r)).
  apply elem_of_date_range_D, (span_of_trips _ _ _ Hlo Hhi).
  exists r, r. split_and!; [done..|lia|lia].
Qed.

(** X14: when no retained trip starts before 2015, the training rows
    [weekly.loc['2015':'2016']] followed by the rows from 2017 on are the
    whole weekly series: the training rows are a prefix, nothing is in both
    parts and nothing is lost. The training labels are the Sundays from
    2015-01-04 to 2016-12-25. *)
Theorem validation_split_covers_weekly
    (rides : list Trip) (ws : list (Z * option Q)) :
  weekly rides = Some ws →
  (∀ r, r ∈ cleaned rides → days_from_civil 2015 1 1 ≤ start_day r) →
  train ws ++ held_out ws = ws
  ∧ Forall (λ p, days_from_civil 2015 1 4 ≤ p.1 ≤ days_from_civil 2016 12 25)
      (train ws)
  ∧ Forall (λ p, days_from_civil 2017 1 1 ≤ p.1) (held_out ws).
Proof.
  intros Hws Hstart. pose proof (weekly_labels_sundays _ _ Hws) as Hst.
  split_and!.
  - apply train_held_out_app; [by apply strict_weekly_sorted|].
    eapply weekly_labels_lower_bound; [by apply weekly_rows_of|done].
  - apply Forall_forall. intros p [Hp Hin]%list_elem_of_filter.
    apply sunday_in_window; [|done].
    apply andb_true_iff in Hst as [Hsun _].
    rewrite forallb_forall in Hsun. apply Hsun, list_elem_of_In.
    by apply list_elem_of_fmap_2.
  - apply Forall_forall. by intros p [Hp _]%list_elem_of_filter.
Qed.

Lemma validation_split_covers_weekly_witness :
  train (default [] (weekly [scenario_2;
                             trip 2 (midnight (days_from_civil 2017 2 1))
                               600 1026 1032]))
    ++ held_out (default [] (weekly [scenario_2;
                                     trip 2 (midnight (days_from_civil 2017 2 1))
                                       600 1026 1032]))
  = default [] (weekly [scenario_2;
                        trip 2 (midnight (days_from_civil 2017 2 1))
                          600 1026 1032])
  ∧ Forall (λ p, days_from_civil 2015 1 4 ≤ p.1 ≤ days_from_civil 2016 12 25)
      (train (default [] (weekly [scenario_2;
                                  trip 2 (midnight (days_from_civil 2017 2 1))
                                    600 1026 1032])))
  ∧ Forall (λ p, days_from_civil 2017 1 1 ≤ p.1)
      (held_out (default [] (weekly [scenario_2;
                                     trip 2 (midnight (days_from_civil 2017 2 1))
                                       600 1026 1032]))).
Proof.
  apply (validation_split_covers_weekly
           [scenario_2;
            trip 2 (midnight (days_from_civil 2017 2 1)) 600 1026 1032]).
  - vm_compute. reflexivity.
  - apply Forall_forall. apply (bool_decide_unpack _). vm_compute. exact I.
Defined.

(** X15: the training window is cut by week label, not by trip date: a
    retained trip that starts from 2016-12-26 to 2016-12-31 is counted in
    the week labelled Sunday 2017-01-01, and that week is not among the
    training rows but among the rows from 2017 on. *)
Theorem last_days_of_2016_are_held_out
    (rides : list Trip) (ds : list (Z * Z)) (ws : list (Z * option Q))
    (r : Trip) :
  daily rides = Some ds →
  weekly rides = Some ws →
  r ∈ cleaned rides →
  days_from_civil 2016 12 26 ≤ start_day r ≤ days_from_civil 2016 12 31 →
  week_end (start_day r) = days_from_civil 2017 1 1
  ∧ get (days_from_civil 2017 1 1) (train ws) = None
  ∧ get (days_from_civil 2017 1 1) (held_out ws)
    = Some (mean (week_counts (days_from_civil 2017 1 1) ds))
  ∧ week_counts (days_from_civil 2017 1 1) ds ≠ [].
Proof.
  intros ->%daily_rows_of (_ & _ & ->)%weekly_Some Hr Hd.
  assert (week_end (start_day r) = days_from_civil 2017 1 1) as Hweek.
  { apply week_end_unique; [done|].
    change (days_from_civil 2017 1 1) with (days_from_civil 2016 12 26 + 6).
    change (days_from_civil 2016 12 31) with (days_from_civil 2016 12 26 + 5) in Hd.
    lia. }
  destruct (daily_row_of_trip rides r Hr) as [n Hn].
  assert (is_Some (get (days_from_civil 2017 1 1)
                     (resample_W_mean (daily_rows rides)))) as [v Hv].
  { apply resample_W_mean_dom. split; [done|].
    exists (start_day r, n), (start_day r, n). cbn [fst].
    rewrite Hweek. split_and!; [done..|lia|lia]. }
  assert (v = mean (week_counts (days_from_civil 2017 1 1) (daily_rows rides)))
    as Hval by by apply resample_W_mean_value.
  split; [done|]. split_and!.
  - unfold train, loc_years.
    pose proof (get_filter_label
                  (λ k, days_from_civil 2015 1 1 ≤ k ∧ k ≤ days_from_civil 2016 12 31)
                  (resample_W_mean (daily_rows rides))
                  (days_from_civil 2017 1 1)) as E.
    cbn beta in E. rewrite E. by rewrite decide_False by (vm_compute; tauto).
  - unfold held_out, loc_from_year.
    pose proof (get_filter_label (λ k, days_from_civil 2017 1 1 ≤ k)
                  (resample_W_mean (daily_rows rides))
                  (days_from_civil 2017 1 1)) as E.
    cbn beta in E. rewrite E, decide_True by lia. by rewrite Hv, Hval.
  - intros Hnil.
    assert (n ∈ week_counts (days_from_civil 2017 1 1) (daily_rows rides)) as Hin.
    { unfold week_counts. apply (list_elem_of_fmap_2 snd _ (start_day r, n)).
      apply list_elem_of_filter. split; [|done]. cbn [fst].
      change (days_from_civil 2017 1 1) with (days_from_civil 2016 12 26 + 6).
      change (days_from_civil 2016 12 31)
        with (days_from_civil 2016 12 26 + 5) in Hd.
      lia. }
    rewrite Hnil in Hin. by apply not_elem_of_nil in Hin.
Qed.

Lemma last_days_of_2016_are_held_out_witness :
  week_end (start_day (trip 1 (midnight (days_from_civil 2016 12 27)) 600 1026 1032))
  = days_from_civil 2017 1 1
  ∧ get (days_from_civil 2017 1 1)
      (train [(days_from_civil 2017 1 1, Some (1 # 6));
              (days_from_civil 2017 1 8, Some (0 # 7));
              (days_from_civil 2017 1 15, Some (1 # 2))]) = None
  ∧ get (days_from_civil 2017 1 1)
      (held_out [(days_from_civil 2017 1 1, Some (1 # 6));
                 (days_from_civil 2017 1 8, Some (0 # 7));
                 (days_from_civil 2017 1 15, Some (1 # 2))])
    = Some (mean (week_counts (days_from_civil 2017 1 1)
                    (default []
                       (daily [trip 1 (midnight (days_from_civil 2016 12 27))
                                 600 1026 1032;
                               trip 2 (midnight (days_from_civil 2017 1 10))
                                 600 1026 1032]))))
  ∧ week_counts (days_from_civil 2017 1 1)
      (default []
         (daily [trip 1 (midnight (days_from_civil 2016 12 27)) 600 1026 1032;
                 trip 2 (midnight (days_from_civil 2017 1 10)) 600 1026 1032]))
    ≠ [].
Proof.
  apply (last_days_of_2016_are_held_out
           [trip 1 (midnight (days_from_civil 2016 12 27)) 600 1026 1032;
            trip 2 (midnight (days_from_civil 2017 1 10)) 600 1026 1032]
           _
           [(days_from_civil 2017 1 1, Some (1 # 6));
            (days_from_civil 2017 1 8, Some (0 # 7));
            (days_from_civil 2017 1 15, Some (1 # 2))]
           (trip 1 (midnight (days_from_civil 2016 12 27)) 600 1026 1032)).
  - vm_compute. reflexivity.
  - vm_compute. reflexivity.
  - apply (bool_decide_unpack _). vm_compute. exact I.
  - vm_compute. split; discriminate.
Defined.

End split_extras.

(** ** Running the build notebook *)

Section run_facts.
Import Calendar Frame BuildModel Spec Validation Statsmodels Fit.
Context `{Library}.

Lemma weekly_labels_upper_bound rides ws c :
  weekly_rows rides = Some ws →
  (∀ r, r ∈ cleaned rides → start_day r ≤ c) →
  Forall (λ p, p.1 ≤ week_end c) ws.
Proof.
  intros Hws Hc. destruct (cleaned rides) as [|r0 kept] eqn:Ek.
  { rewrite (weekly_empty rides Ek) in Hws. by injection Hws as <-. }
  destruct (index_min_is_Some (start_day <$> cleaned rides)) as [lo Hlo].
  { by rewrite Ek. }
  destruct (index_max_is_Some (start_day <$> cleaned rides)) as [hi Hhi].
  { by rewrite Ek. }
  rewrite (weekly_tabulate _ _ _ Hlo Hhi) in Hws. injection Hws as <-.
  apply Forall_fmap, Forall_forall. intros w [_ Hw]%elem_of_date_range_W_SUN.
  cbn. apply index_max_spec in Hhi as [(r & -> & Hr)%list_elem_of_fmap _].
  rewrite <- Ek in Hc. pose proof (week_end_mono _ _ (Hc r Hr)). lia.
Qed.

Lemma train_all rides ws :
  weekly rides = Some ws →
  (∀ r, r ∈ cleaned rides →
        days_from_civil 2015 1 1 ≤ start_day r ≤ days_from_civil 2016 12 25) →
  train ws = ws.
Proof.
  intros Hws%weekly_rows_of Hwin.
  unfold train, loc_years. apply filter_all. intros p Hp.
  pose proof (weekly_labels_lower_bound rides ws (days_from_civil 2015 1 1)
                Hws (λ r Hr, proj1 (Hwin r Hr))) as Hlo.
  pose proof (weekly_labels_upper_bound rides ws (days_from_civil 2016 12 25)
                Hws (λ r Hr, proj2 (Hwin r Hr))) as Hhi.
  rewrite Forall_forall in Hlo, Hhi.
  specialize (Hlo p Hp). specialize (Hhi p Hp). cbn beta in Hlo, Hhi.
  change (week_end (days_from_civil 2016 12 25))
    with (days_from_civil 2016 12 25) in Hhi.
  change (days_from_civil 2016 12 31) with (days_from_civil 2016 12 25 + 6).
  lia.
Qed.

Lemma train_none rides ws :
  weekly rides = Some ws →
  (∀ r, r ∈ cleaned rides → days_from_civil 2016 12 26 ≤ start_day r) →
  train ws = [].
Proof.
  intros Hws Hlate.
  pose proof (weekly_labels_lower_bound rides ws _ (weekly_rows_of _ _ Hws)
                Hlate) as Hlo.
  pose proof (weekly_labels_sundays rides ws Hws) as Hst.
  apply andb_true_iff in Hst as [Hsun _]. rewrite forallb_forall in Hsun.
  unfold train, loc_years.
  rewrite (filter_ext_elem _ (λ _, False) ws).
  { clear. induction ws as [|p ws IH]; [done|].
    by rewrite filter_cons_False by tauto. }
  intros p Hp. split; [|done]. intros Hwin.
  rewrite Forall_forall in Hlo. specialize (Hlo p Hp). cbn beta in Hlo.
  assert (is_sunday p.1 = true) as Hs.
  { apply Hsun, list_elem_of_In. by apply list_elem_of_fmap_2. }
  pose proof (sunday_in_window p.1 Hs Hwin) as Hw.
  change (days_from_civil 2016 12 26)
    with (days_from_civil 2016 12 25 + 1) in Hlo.
  lia.
Qed.

(** X17: the saved model depends on the rows only through the retained
    ones, whatever their order: reordering the input rows, or adding
    failed rides to them, gives the same run. *)
Theorem run_ignores_row_order_and_failed_rides
    (rides rides' extra : list Trip) (fs : gmap string blob) :
  rides ≡ₚ rides' →
  Forall failed_ride extra →
  run rides' fs = run rides fs ∧ run (rides ++ extra) fs = run rides fs.
Proof.
  intros Hp Hextra. unfold run, weekly. split.
  - by rewrite (daily_perm _ _ Hp).
  - rewrite (daily_of_cleaned_eq (rides ++ extra) rides); [done|].
    by rewrite cleaned_app, (cleaned_all_failed extra), app_nil_r.
Qed.

(** X18: when every retained trip starts from 2015-01-01 to 2016-12-25,
    no week is held out: in a run that returns, the training series is the
    whole weekly series, [trained_model] is [model], and the saved model
    carries the parameters of the fit on the full series. *)
Theorem validation_without_held_out_weeks
    (rides : list Trip) (fs : gmap string blob)
    (k : Kernel) (fs' : gmap string blob) :
  run rides fs = Some (k, fs') →
  (∀ r, r ∈ cleaned rides →
        days_from_civil 2015 1 1 ≤ start_day r ≤ days_from_civil 2016 12 25) →
  k_train k = k_weekly k
  ∧ k_trained_model k = k_model k
  ∧ get_params (k_testing_model k) = get_params (k_model k).
Proof.
  intros (ws & result & model & predicted & trained_model & testing_model
          & predicted' & Hws & _ & _ & _ & _ & _ & _ & Hfit & _ & _ & _ & _
          & Htrain & Hfilter & _ & _ & -> & ->)%run_Some Hwin.
  cbn [k_train k_weekly k_trained_model k_model k_testing_model].
  fold (train ws) in *. rewrite (train_all rides ws Hws Hwin) in *.
  assert (trained_model = model) as -> by congruence.
  split_and!; [done..|]. by eapply get_params_filter.
Qed.

(** X19: when no retained trip starts before 2016-12-26, no week is left
    for training: the rows of 2015 and 2016 of the weekly series are none,
    so [trained_model] is asked of a model over no observation at all.
    Where the library refuses that, the run stops there and no file is
    written; a run that returns has an empty [train] and the library's
    fit of the empty model as [trained_model]. *)
Theorem validation_without_training_weeks
    (rides : list Trip) (fs : gmap string blob) :
  (∀ r, r ∈ cleaned rides → days_from_civil 2016 12 26 ≤ start_day r) →
  (∀ ws, weekly rides = Some ws → train ws = [])
  ∧ (fit (SARIMAX [] (2, 1, 2)) = None → run rides fs = None)
  ∧ (∀ k fs', run rides fs = Some (k, fs') →
              k_train k = []
              ∧ fit (SARIMAX [] (2, 1, 2)) = Some (k_trained_model k)).
Proof.
  intros Hlate.
  assert (∀ k fs', run rides fs = Some (k, fs') →
                   k_train k = []
                   ∧ fit (SARIMAX [] (2, 1, 2)) = Some (k_trained_model k))
    as Hrun.
  { intros k fs'
      (ws & result & model & predicted & trained_model & testing_model
       & predicted' & Hws & _ & _ & _ & _ & _ & _ & _ & _ & _ & _ & _
       & Htrain & _ & _ & _ & -> & ->)%run_Some.
    cbn [k_train k_trained_model]. fold (train ws) in *.
    rewrite (train_none rides ws Hws Hlate) in *. done. }
  split_and!.
  - intros ws Hws. by apply (train_none rides).
  - intros Hfit. destruct (run rides fs) as [[k fs']|] eqn:E; [|done].
    destruct (Hrun k fs' eq_refl) as [_ Hk]. congruence.
  - exact Hrun.
Qed.

End run_facts.

Lemma run_ignores_row_order_and_failed_rides_witness :
  Fit.run (H := Statsmodels.example_library)
    (Spec.rides_2015_2017 ++ [Spec.scenario_1]) ∅
  = Fit.run (H := Statsmodels.example_library)
      (Spec.scenario_1 :: Spec.rides_2015_2017) ∅
  ∧ Fit.run (H := Statsmodels.example_library)
      ((Spec.scenario_1 :: Spec.rides_2015_2017) ++ [Spec.scenario_1]) ∅
    = Fit.run (H := Statsmodels.example_library)
        (Spec.scenario_1 :: Spec.rides_2015_2017) ∅.
Proof.
  apply (run_ignores_row_order_and_failed_rides (H := Statsmodels.example_library)
           (Spec.scenario_1 :: Spec.rides_2015_2017)
           (Spec.rides_2015_2017 ++ [Spec.scenario_1])
           [Spec.scenario_1] ∅).
  - apply (Permutation_cons_append Spec.rides_2015_2017).
  - apply (bool_decide_unpack _). vm_compute. exact I.
Defined.

Lemma validation_without_held_out_weeks_witness :
  ∃ k fs',
    Fit.run (H := Statsmodels.example_library) Spec.rides_2015_2016 ∅
    = Some (k, fs')
    ∧ Fit.k_train k = Fit.k_weekly k
    ∧ length (Fit.k_weekly k) = 104%nat
    ∧ Fit.k_trained_model k = Fit.k_model k
    ∧ Statsmodels.get_params (Fit.k_testing_model k)
      = Statsmodels.get_params (Fit.k_model k).
Proof.
  eexists _, _.
  assert (Fit.run (H := Statsmodels.example_library) Spec.rides_2015_2016 ∅
          = Some (_, _)) as Hrun by (vm_compute; reflexivity).
  split; [exact Hrun|].
  destruct (validation_without_held_out_weeks
              (H := Statsmodels.example_library) _ _ _ _ Hrun)
    as (Htrain & Hmodel & Hparams).
  { apply Forall_forall. apply (bool_decide_unpack _). vm_compute. exact I. }
  split; [exact Htrain|]. split; [reflexivity|].
  split; [exact Hmodel | exact Hparams].
Defined.

Lemma validation_without_training_weeks_witness :
  Fit.run (H := Statsmodels.example_library) Spec.rides_2017_2019 ∅ = None.
Proof.
  apply (validation_without_training_weeks (H := Statsmodels.example_library)
           Spec.rides_2017_2019 ∅).
  - apply Forall_forall. apply (bool_decide_unpack _). vm_compute. exact I.
  - reflexivity.
Defined.

(** ** The week a forecast is made for *)

Section forecast_week.
Import Calendar Dates.

Lemma weekday_shift n k : weekday (n + 7 * k) = weekday n.
Proof.
  unfold weekday. replace (n + 7 * k + 3) with (n + 3 + k * 7) by lia.
  by rewrite Z.mod_add by lia.
Qed.

Lemma week_end_shift n k : week_end (n + 7 * k) = week_end n + 7 * k.
Proof. unfold week_end. rewrite weekday_shift. lia. Qed.

Lemma day_of_time n m : 0 ≤ m < minutes_per_day → day_of (midnight n + m) = n.
Proof.
  intros Hm. unfold day_of, midnight.
  rewrite Z.add_comm, Z.div_add by (unfold minutes_per_day; lia).
  rewrite Z.div_small by done. lia.
Qed.

(** X20: [forecast] goes forward to the end of the week; it does not go to
    the nearest Sunday, as its docstring says. The Sunday it queries is
    the input day or one of the six days after it, and it is a nearest
    Sunday exactly when the input day is a Thursday or later in the week;
    for a Monday, Tuesday or Wednesday the Sunday before is nearer. *)
Theorem forecast_week_is_not_the_nearest_sunday (dt : Z) :
  week_end_date dt - day_of dt = 6 - weekday (day_of dt)
  ∧ is_sunday (week_end_date dt - 7) = true
  ∧ day_of dt - (week_end_date dt - 7) = weekday (day_of dt) + 1
  ∧ ((∀ s, is_sunday s = true →
           Z.abs (week_end_date dt - day_of dt) ≤ Z.abs (s - day_of dt))
     ↔ 3 ≤ weekday (day_of dt)).
Proof.
  unfold week_end_date. set (d := day_of dt).
  pose proof (weekday_range d) as Hwd.
  assert (week_end d - d = 6 - weekday d) as Hdist by (unfold week_end; lia).
  assert (is_sunday (week_end d - 7) = true) as Hprev.
  { replace (week_end d - 7) with (week_end d + 7 * -1) by lia.
    apply is_sunday_shift, week_end_sunday. }
  split_and!; [done|done|lia|]. split.
  - intros Hnear. specialize (Hnear _ Hprev). lia.
  - intros Hthu s Hs.
    pose proof (sundays_apart (week_end d) s (week_end_sunday d) Hs) as Hap.
    set (k := (s - week_end d) / 7) in *. lia.
Qed.

(** X21: the week queried depends on the calendar day only, not on the
    time of day; moving the input by whole weeks moves the queried Sunday
    by as many weeks; and the queried Sunday, given back as input, is
    queried again. *)
Theorem forecast_week_by_day_and_shift (n m k : Z) :
  0 ≤ m < minutes_per_day →
  week_end_date (midnight n + m) = week_end n
  ∧ week_end_date (midnight (n + 7 * k) + m) = week_end n + 7 * k
  ∧ week_end_date (midnight (week_end_date (midnight n + m)) + m)
    = week_end_date (midnight n + m).
Proof.
  intros Hm. unfold week_end_date. rewrite !day_of_time by done.
  split_and!; [done | apply week_end_shift | apply week_end_idemp].
Qed.

Lemma forecast_week_by_day_and_shift_witness :
  week_end_date (midnight (days_from_civil 2017 7 20) + 615)
  = week_end (days_from_civil 2017 7 20)
  ∧ week_end_date (midnight (days_from_civil 2017 7 20 + 7 * 2) + 615)
    = week_end (days_from_civil 2017 7 20) + 7 * 2
  ∧ week_end_date
      (midnight (week_end_date (midnight (days_from_civil 2017 7 20) + 615)) + 615)
    = week_end_date (midnight (days_from_civil 2017 7 20) + 615).
Proof.
  apply (forecast_week_by_day_and_shift (days_from_civil 2017 7 20) 615 2).
  unfold minutes_per_day. lia.
Defined.

End forecast_week.
